(** * ncspan_grabber: bounded-duration capture, stream classification and
      output finalisation

    A shallow embedding of [shed/ncspan_grabber.py].  Pure helpers are Rocq
    functions on strings; the orchestrating code runs in a small monad that
    threads a world (logical clock, files, directories, timestamped trace)
    and distinguishes returning, [exit(n)], an uncaught exception and a wait
    that never ends.

    The library calls fail as they do in CPython 3.11 on Linux where the
    program can be given an input that makes them fail: [thread.join] above
    [threading.TIMEOUT_MAX], [datetime.fromtimestamp] outside the years 1 to
    9999, [shutil.move] and [os.listdir] on what is not there.  What [main]
    does before its branch on the url ([os.makedirs], the opening of the log
    file) and every [open(path, "w")] are taken to succeed. *)

From Stdlib Require Import ZArith Lia Bool Ascii String List.
From stdpp Require Import base option gmap strings list fin_maps pretty.

Open Scope Z_scope.
Open Scope string_scope.

(** ** Python strings *)

Module PyStr.

Definition nl : string := String "010"%char EmptyString.
Definition dquote : string := String "034"%char EmptyString.

(** [s.startswith(p)] *)
Fixpoint startswith (s p : string) : bool :=
  match p with
  | EmptyString => true
  | String a p' =>
      match s with
      | EmptyString => false
      | String b s' => Ascii.eqb a b && startswith s' p'
      end
  end.

Fixpoint rev_acc (s acc : string) : string :=
  match s with
  | EmptyString => acc
  | String c s' => rev_acc s' (String c acc)
  end.

Definition rev (s : string) : string := rev_acc s EmptyString.

(** [s.endswith(p)] *)
Definition endswith (s p : string) : bool := startswith (rev s) (rev p).

(** [sub in s] *)
Fixpoint contains (sub s : string) : bool :=
  startswith s sub ||
  match s with
  | EmptyString => false
  | String _ s' => contains sub s'
  end.

Fixpoint drop (n : nat) (s : string) : string :=
  match n, s with
  | O, _ => s
  | S _, EmptyString => EmptyString
  | S n', String _ s' => drop n' s'
  end.

Fixpoint take (n : nat) (s : string) : string :=
  match n, s with
  | O, _ => EmptyString
  | S _, EmptyString => EmptyString
  | S n', String c s' => String c (take n' s')
  end.

Fixpoint mem (c : ascii) (chars : string) : bool :=
  match chars with
  | EmptyString => false
  | String d r => Ascii.eqb c d || mem c r
  end.

(** [s.lstrip(chars)] *)
Fixpoint lstrip (s chars : string) : string :=
  match s with
  | EmptyString => EmptyString
  | String c s' => if mem c chars then lstrip s' chars else s
  end.

(** [s.replace(old, new)] for a non-empty [old]: [skip] counts the
    characters of a match that are still to be passed over. *)
Fixpoint replace_go (old new : string) (skip : nat) (s : string) : string :=
  match s with
  | EmptyString => EmptyString
  | String c s' =>
      match skip with
      | S k => replace_go old new k s'
      | O =>
          if startswith s old
          then new ++ replace_go old new (Nat.pred (String.length old)) s'
          else String c (replace_go old new O s')
      end
  end.

Fixpoint intersperse (new s : string) : string :=
  match s with
  | EmptyString => new
  | String c s' => new ++ String c (intersperse new s')
  end.

Definition replace (s old new : string) : string :=
  match old with
  | EmptyString => intersperse new s
  | String _ _ => replace_go old new O s
  end.

(** [s.rfind(c)] for a one-character needle: the index of the last
    occurrence, or -1. *)
Fixpoint rfind_go (c : ascii) (s : string) (i last : Z) : Z :=
  match s with
  | EmptyString => last
  | String d s' => rfind_go c s' (i + 1) (if Ascii.eqb c d then i else last)
  end.

Definition rfind (s : string) (c : ascii) : Z := rfind_go c s 0 (-1).

(** [str(n)] for an int *)
Definition of_int (n : Z) : string := pretty n.

(** the [%02d]-style fields of [strftime] *)
Fixpoint zfill_go (n : nat) (s : string) : string :=
  match n with
  | O => s
  | S n' => String "0"%char (zfill_go n' s)
  end.

Definition zfill (width : nat) (n : Z) : string :=
  let s := of_int n in zfill_go (width - String.length s) s.

(** [s.rstrip(chars)] *)
Definition rstrip (s chars : string) : string := rev (lstrip (rev s) chars).

End PyStr.

Import PyStr.

(** ** [os.path] on POSIX *)

Module posixpath.

Definition sep : string := "/".

(** [os.path.join(a, b)] *)
Definition join (a b : string) : string :=
  if startswith b sep then b
  else if (String.length a =? 0)%nat || endswith a sep then a ++ b
  else a ++ sep ++ b.

(** [os.path.basename(p)] *)
Definition basename (p : string) : string :=
  drop (Z.to_nat (rfind p "/"%char + 1)) p.

(** [os.path.dirname(p)] *)
Definition dirname (p : string) : string :=
  let head := take (Z.to_nat (rfind p "/"%char + 1)) p in
  if negb (String.eqb head EmptyString)
     && negb (String.eqb (lstrip head sep) EmptyString)
  then rstrip head sep else head.

(** the [while filenameIndex < dotIndex] loop of [_splitext]: is there a
    character other than a dot in the slice? *)
Fixpoint has_non_dot (s : string) : bool :=
  match s with
  | EmptyString => false
  | String c s' => if Ascii.eqb c "."%char then has_non_dot s' else true
  end.

(** [os.path.splitext(p)] *)
Definition splitext (p : string) : string * string :=
  let sepIndex := rfind p "/"%char in
  let dotIndex := rfind p "."%char in
  if (sepIndex <? dotIndex)%Z
     && has_non_dot (take (Z.to_nat (dotIndex - (sepIndex + 1)))
                          (drop (Z.to_nat (sepIndex + 1)) p))
  then (take (Z.to_nat dotIndex) p, drop (Z.to_nat dotIndex) p)
  else (p, EmptyString).

End posixpath.

(** ** Exceptions

    The classes that occur in the program and in the library calls it makes;
    all of them derive from [Exception].  The argument is [str(e)]. *)

Inductive exn :=
| Exception (msg : string)
| TypeError (msg : string)
| ValueError (msg : string)
| OverflowError (msg : string)
| OSError (msg : string)
| FileNotFoundError (msg : string)
| FileExistsError (msg : string)
| NotADirectoryError (msg : string)
| ShutilError (msg : string).         (* [shutil.Error] *)

(** [str(e)] *)
Definition exn_str (e : exn) : string :=
  match e with
  | Exception m | TypeError m | ValueError m | OverflowError m | OSError m
  | FileNotFoundError m | FileExistsError m | NotADirectoryError m
  | ShutilError m => m
  end.

Inductive result (A : Type) :=
| Ok (a : A)
| Err (e : exn).
Arguments Ok {A} a.
Arguments Err {A} e.

(** ** [datetime] in UTC

    An aware UTC [datetime] is kept as its POSIX timestamp in whole seconds,
    the unit of [--duration]; the calendar fields are computed from it when
    it is formatted.  The objects of Python cover the years 1 to 9999. *)

Module datetime.

Definition t := Z.

Record fields := {
  year : Z; month : Z; day : Z; hour : Z; minute : Z; second : Z
}.

(** proleptic Gregorian date of a day count relative to 1970-01-01 *)
Definition civil_from_days (days : Z) : Z * Z * Z :=
  let z := days + 719468 in
  let era := z / 146097 in
  let doe := z mod 146097 in
  let yoe := (doe - doe / 1460 + doe / 36524 - doe / 146096) / 365 in
  let doy := doe - (365 * yoe + yoe / 4 - yoe / 100) in
  let mp := (5 * doy + 2) / 153 in
  let d := doy - (153 * mp + 2) / 5 + 1 in
  let m := if (mp <? 10)%Z then mp + 3 else mp - 9 in
  let y := yoe + era * 400 + (if (m <=? 2)%Z then 1 else 0) in
  (y, m, d).

(** the broken-down UTC time of a timestamp, as C's [gmtime] computes it *)
Definition gmtime (ts : Z) : fields :=
  let '(y, m, d) := civil_from_days (ts / 86400) in
  let sod := ts mod 86400 in
  {| year := y; month := m; day := d;
     hour := sod / 3600; minute := (sod mod 3600) / 60; second := sod mod 60 |}.

Definition MINYEAR : Z := 1.
Definition MAXYEAR : Z := 9999.

(** the timestamps of the years [MINYEAR] to [MAXYEAR] *)
Definition min_timestamp : Z := -62135596800.
Definition max_timestamp : Z := 253402300799.

Definition representable (ts : Z) : bool :=
  (min_timestamp <=? ts)%Z && (ts <=? max_timestamp)%Z.

(** a C [int] that overflows wraps around *)
Definition wrap_int (n : Z) : Z := (n + 2 ^ 31) mod 2 ^ 32 - 2 ^ 31.

(** a field record stands for the call that succeeds with it *)
Definition valid (f : fields) : result fields := Ok f.

(** [datetime.fromtimestamp(ts, UTC)] for an int [ts], with a 64-bit
    [time_t] and glibc: the conversion to [time_t] raises [OverflowError];
    [gmtime] fails with [EOVERFLOW] when [tm_year] does not fit a C [int];
    the constructor of [datetime] then refuses a year outside
    [MINYEAR..MAXYEAR], which it reads from [tm_year + 1900] as a C [int]. *)
Definition fromtimestamp (ts : Z) : result fields :=
  if (ts <? - 2 ^ 63)%Z || (2 ^ 63 - 1 <? ts)%Z then
    Err (OverflowError "timestamp out of range for platform time_t")
  else
    let tm := gmtime ts in
    let tm_year := year tm - 1900 in
    if (tm_year <? - 2 ^ 31)%Z || (2 ^ 31 - 1 <? tm_year)%Z then
      Err (OSError "[Errno 75] Value too large for defined data type")
    else
      let y := wrap_int (tm_year + 1900) in
      if (MINYEAR <=? y)%Z && (y <=? MAXYEAR)%Z then valid tm
      else Err (ValueError ("year " ++ of_int y ++ " is out of range")).

(** [strftime] with "%Y-%m-%d %H:%M:%S"; glibc prints [%Y] without padding *)
Definition strftime_date_time (dt : t) : string :=
  let f := gmtime dt in
  of_int (year f) ++ "-" ++ zfill 2 (month f) ++ "-" ++ zfill 2 (day f) ++ " " ++
  zfill 2 (hour f) ++ ":" ++ zfill 2 (minute f) ++ ":" ++ zfill 2 (second f).

(** [dt.strftime("%Y%m%dT%H%M%S")] *)
Definition strftime_compact (dt : t) : string :=
  let f := gmtime dt in
  of_int (year f) ++ zfill 2 (month f) ++ zfill 2 (day f) ++ "T" ++
  zfill 2 (hour f) ++ zfill 2 (minute f) ++ zfill 2 (second f).

(** [dt.strftime("%Y-%m-%d %H:%M:%S UTC")] *)
Definition strftime_utc (dt : t) : string := strftime_date_time dt ++ " UTC".

(** [str(dt)]: the ISO format pads the year to four digits *)
Definition str (dt : t) : string :=
  let f := gmtime dt in
  zfill 4 (year f) ++ "-" ++ zfill 2 (month f) ++ "-" ++ zfill 2 (day f) ++ " " ++
  zfill 2 (hour f) ++ ":" ++ zfill 2 (minute f) ++ ":" ++ zfill 2 (second f) ++ "+00:00".

End datetime.

Coercion datetime.valid : datetime.fields >-> result.

(** ** Python values and the world *)

(** The values [info.get(...)] hands back. *)
Inductive pyval :=
| VNone
| VBool (b : bool)
| VInt (n : Z)
| VStr (s : string).

(** truth value testing *)
Definition truthy (v : pyval) : bool :=
  match v with
  | VNone => false
  | VBool b => b
  | VInt n => negb (n =? 0)%Z
  | VStr s => negb (String.eqb s EmptyString)
  end.

(** [v == s] for a string literal [s] *)
Definition eq_str (v : pyval) (s : string) : bool :=
  match v with
  | VStr s' => String.eqb s' s
  | _ => false
  end.

(** [d.get(k)] *)
Definition dict_get (d : gmap string pyval) (k : string) : pyval :=
  default VNone (d !! k).

(** [x or d] for an optional string argument *)
Definition str_or (x : option string) (d : string) : string :=
  match x with
  | Some s => if String.eqb s EmptyString then d else s
  | None => d
  end.

Inductive level := DEBUG | INFO | WARNING | ERROR.

(** What an observer of the process sees, in order. *)
Inductive event :=
| Log (lv : level) (msg : string)   (* a call of [logger.<lv>(msg)] *)
| MakeDirs (path : string)          (* [os.makedirs(path, exist_ok=True)] *)
| ExtractInfo (url : string)        (* [ydl.extract_info(url, download=False)] *)
| ThreadStart (url : string)        (* [thread.start()] *)
| FlagSet                           (* [stop_flag.set()] *)
| WorkerRaised (e : exn)            (* [ydl.download([url])] raised [e] *)
| ThreadExit                        (* [run_downloader] returned *)
| ThreadCrashed (e : exn).          (* [e] escaped from [run_downloader] *)

(** Paths are kept as they are written: [fs] holds the regular files,
    [dirs] the directories that were made; a path with a file or a
    directory below it is a directory too. *)
Record world := {
  clock : Z;                        (* seconds since the epoch, UTC *)
  utcoffset : Z -> Z;               (* local time minus UTC, at an instant *)
  fs : gmap string string;          (* path to file contents *)
  dirs : gset string;
  trace : list (Z * event)          (* oldest first *)
}.

Definition emit (e : event) (w : world) : world :=
  {| clock := clock w; utcoffset := utcoffset w; fs := fs w; dirs := dirs w;
     trace := (trace w ++ [(clock w, e)])%list |}.

Definition tick (w : world) : world :=
  {| clock := clock w + 1; utcoffset := utcoffset w; fs := fs w; dirs := dirs w;
     trace := trace w |}.

Definition with_fs (f : gmap string string) (w : world) : world :=
  {| clock := clock w; utcoffset := utcoffset w; fs := f; dirs := dirs w;
     trace := trace w |}.

Definition with_dirs (d : gset string) (w : world) : world :=
  {| clock := clock w; utcoffset := utcoffset w; fs := fs w; dirs := d;
     trace := trace w |}.

(** How a call ends: it returns, the interpreter exits, an exception
    escapes, or it waits for ever. *)
Inductive outcome (A : Type) :=
| Ret (a : A)
| Exit (code : Z)
| Raise (e : exn)
| Hang.
Arguments Ret {A} a.
Arguments Exit {A} code.
Arguments Raise {A} e.
Arguments Hang {A}.

Definition M (A : Type) : Type := world -> outcome A * world.

Definition ret {A} (a : A) : M A := fun w => (Ret a, w).

Definition bind {A B} (m : M A) (k : A -> M B) : M B :=
  fun w =>
    match m w with
    | (Ret a, w') => k a w'
    | (Exit c, w') => (Exit c, w')
    | (Raise e, w') => (Raise e, w')
    | (Hang, w') => (Hang, w')
    end.

Notation "x <- m ;; k" := (bind m (fun x => k))
  (at level 100, m at next level, right associativity).
Notation "m ;;; k" := (bind m (fun _ => k))
  (at level 100, right associativity).

Definition observe (e : event) : M unit := fun w => (Ret tt, emit e w).

(** [datetime.now(UTC)] *)
Definition now : M datetime.t := fun w => (Ret (clock w), w).

(** [exit(code)] *)
Definition py_exit {A} (code : Z) : M A := fun w => (Exit code, w).

Definition raise {A} (e : exn) : M A := fun w => (Raise e, w).

(** [for x in l: body(x)] *)
Fixpoint for_each {A} (l : list A) (body : A -> M unit) : M unit :=
  match l with
  | [] => ret tt
  | x :: l' => body x ;;; for_each l' body
  end.

(** ** The file store

    The calls that [main] makes before its branch on the url are taken to
    succeed: [os.makedirs] and the opening of the log file.  So is every
    [open(path, "w")]; the statements that depend on a write name the
    conditions under which the real call succeeds. *)

Module os.

(** [open(path, "w").write(data)] *)
Definition write_file (path data : string) : M unit :=
  fun w => (Ret tt, with_fs (<[path := data]> (fs w)) w).

(** a stream opened with [open(path, "a")] writes [data] *)
Definition append_file (path data : string) : M unit :=
  fun w => (Ret tt, with_fs (<[path := default EmptyString (fs w !! path) ++ data]> (fs w)) w).

(** [path] without its trailing separators *)
Definition norm (path : string) : string :=
  let s := rstrip path posixpath.sep in
  if String.eqb s EmptyString && negb (String.eqb path EmptyString)
  then posixpath.sep else s.

(** [path] lies below the directory [d] *)
Definition below (d path : string) : bool :=
  let pre := posixpath.join d EmptyString in
  startswith path pre && negb (String.eqb (drop (String.length pre) path) EmptyString).

(** [os.path.isdir(path)] *)
Definition isdir (path : string) (w : world) : bool :=
  let d := norm path in
  negb (String.eqb d EmptyString)
  && (bool_decide (d ∈ dirs w)
      || existsb (below d) (elements (dirs w))
      || existsb (fun kv => below d (fst kv)) (map_to_list (fs w))).

(** [os.path.exists(path)] *)
Definition path_exists (path : string) (w : world) : bool :=
  bool_decide (is_Some (fs w !! path)) || isdir path w.

(** a file can be created at [path]: its directory is there (the empty
    directory name is the working directory) *)
Definition parent_ok (path : string) (w : world) : bool :=
  String.eqb (posixpath.dirname path) EmptyString
  || isdir (posixpath.dirname path) w.

(** the entry of [path] under directory [d], when it is one *)
Definition entry_of (d path : string) : option string :=
  let pre := posixpath.join d EmptyString in
  let name := drop (String.length pre) path in
  if startswith path pre
     && negb (String.eqb name EmptyString)
     && negb (contains posixpath.sep name)
  then Some name else None.

(** the part of [s] before its first separator *)
Fixpoint first_component (s : string) : string :=
  match s with
  | EmptyString => EmptyString
  | String c s' =>
      if Ascii.eqb c "/"%char then EmptyString else String c (first_component s')
  end.

(** the entry of directory [d] that [path] is, or lies in *)
Definition child_of (d path : string) : option string :=
  let pre := posixpath.join d EmptyString in
  let name := first_component (drop (String.length pre) path) in
  if startswith path pre && negb (String.eqb name EmptyString)
  then Some name else None.

(** [os.listdir(d)]: files and sub-directories, in no particular order *)
Definition listdir (d : string) : M (list string) :=
  fun w =>
    if isdir d w then
      (Ret (remove_dups
              (omap (child_of d) ((map_to_list (fs w)).*1 ++ elements (dirs w))%list)),
       w)
    else if bool_decide (is_Some (fs w !! d)) then
      (Raise (NotADirectoryError ("[Errno 20] Not a directory: '" ++ d ++ "'")), w)
    else
      (Raise (FileNotFoundError ("[Errno 2] No such file or directory: '" ++ d ++ "'")), w).

(** [os.makedirs(d, exist_ok=True)] *)
Definition makedirs (d : string) : M unit :=
  fun w => (Ret tt, with_dirs ({[ norm d ]} ∪ dirs w) (emit (MakeDirs d) w)).

(** where [path] goes when the directory [src] becomes [dst] *)
Definition reroot (src dst path : string) : string :=
  if String.eqb path src || below src path
  then dst ++ drop (String.length src) path else path.

(** [shutil._destinsrc(src, dst)] *)
Definition destinsrc (src dst : string) : bool :=
  startswith (posixpath.join dst EmptyString) (posixpath.join src EmptyString).

(** [shutil.move(src, dst)].  A directory that is the destination takes the
    source under its own name; a regular file is renamed over whatever file
    is at the destination, provided the directory of the destination
    exists; a directory is moved with all that lies below it. *)
Definition move (src dst : string) : M unit :=
  fun w =>
    if isdir dst w && String.eqb (norm src) (norm dst) then (Ret tt, w)
    else
      let real_dst :=
        if isdir dst w
        then posixpath.join dst (posixpath.basename (rstrip src posixpath.sep))
        else dst in
      if isdir dst w && path_exists real_dst w then
        (Raise (ShutilError ("Destination path '" ++ real_dst ++ "' already exists")), w)
      else
        match fs w !! src with
        | Some data =>
            if parent_ok real_dst w then
              (Ret tt, with_fs (<[real_dst := data]> (delete src (fs w))) w)
            else if bool_decide (is_Some (fs w !! posixpath.dirname real_dst)) then
              (Raise (NotADirectoryError
                        ("[Errno 20] Not a directory: '" ++ real_dst ++ "'")), w)
            else
              (Raise (FileNotFoundError
                        ("[Errno 2] No such file or directory: '" ++ real_dst ++ "'")), w)
        | None =>
            if isdir src w then
              if bool_decide (is_Some (fs w !! real_dst)) then
                (Raise (FileExistsError
                          ("[Errno 17] File exists: '" ++ real_dst ++ "'")), w)
              else if destinsrc src dst then
                (Raise (ShutilError
                          ("Cannot move a directory '" ++ src ++ "' into itself '"
                           ++ dst ++ "'.")), w)
              else
                (Ret tt,
                 with_dirs ({[ norm real_dst ]}
                            ∪ set_map (reroot src real_dst) (dirs w ∖ {[ norm src ]}))
                   (with_fs (list_to_map
                               (map (fun kv => (reroot src real_dst (fst kv), snd kv))
                                  (map_to_list (fs w)))) w))
            else
              (Raise (FileNotFoundError
                        ("[Errno 2] No such file or directory: '" ++ src ++ "'")), w)
        end.

End os.

(** ** Logging *)

Record Logger := {
  log_level : level;
  log_sink : option string          (* the file of the [FileHandler] *)
}.

(** [logging.FileHandler(log_file)] opens the file for appending at once *)
Definition FileHandler (log_file : string) : M unit := os.append_file log_file EmptyString.

Definition setup_logging (debug : bool) (log_file : option string) : M Logger :=
  let level := if debug then DEBUG else INFO in
  match log_file with
  | Some f =>
      if String.eqb f EmptyString
      then ret {| log_level := level; log_sink := None |}
      else FileHandler f ;;; ret {| log_level := level; log_sink := Some f |}
  | None => ret {| log_level := level; log_sink := None |}
  end.

Definition levelno (lv : level) : Z :=
  match lv with DEBUG => 10 | INFO => 20 | WARNING => 30 | ERROR => 40 end.

Definition levelname (lv : level) : string :=
  match lv with
  | DEBUG => "DEBUG" | INFO => "INFO" | WARNING => "WARNING" | ERROR => "ERROR"
  end.

(** the formatter: [%(asctime)s] is the local time of the record *)
Definition format_record (w : world) (lv : level) (msg : string) : string :=
  "[" ++ datetime.strftime_date_time (clock w + utcoffset w (clock w)) ++ "] ["
  ++ levelname lv ++ "] " ++ msg.

(** [logger.<lv>(msg)]: the trace records the call; a record that passes the
    level of the logger is written to the console and appended to the log
    file.  [YtDlpLogger] hands the fetcher's own messages to the same
    logger; those belong to the fetcher and are not recorded. *)
Definition log (logger : Logger) (lv : level) (msg : string) : M unit :=
  observe (Log lv msg) ;;;
  if (levelno (log_level logger) <=? levelno lv)%Z then
    match log_sink logger with
    | Some f => fun w => os.append_file f (format_record w lv msg ++ nl) w
    | None => ret tt
    end
  else ret tt.

(** ** External capabilities

    [yt_dlp.YoutubeDL] is not part of the program.  Its metadata query is a
    function of the url; the worker's use of it, from the construction of
    the object to the end of the [with] block, is a script that says what
    happens in each second of its execution.

    Time passes only while the orchestrator waits in a join: a step that
    keeps the fetcher going takes one second, the step at which the worker
    ends takes none, and the orchestrator's own statements are
    instantaneous.  At the instant the deadline is reached the orchestrator
    is served first: a worker that would leave exactly then is still found
    alive. *)

(** [threading.Event] *)
Record Event := { flag : bool }.

Definition Event_new : Event := {| flag := false |}.
Definition Event_is_set (e : Event) : bool := flag e.
Definition Event_set (e : Event) : Event := {| flag := true |}.

Inductive fetch_step :=
| Work                          (* busy for this second *)
| Store (path data : string)    (* writes a file *)
| Progress                      (* calls the progress hooks *)
| Finish                        (* [download] returns *)
| Fault (e : exn)               (* [download] raises [e], an [Exception] *)
| Crash (e : exn).              (* [e] is raised outside the [try]: by
                                   [YoutubeDL(ydl_opts)] or by the exit of the
                                   [with] block, or it is no [Exception] *)

Record YdlOpts := {
  outtmpl : string;
  format : string;
  noplaylist : bool;
  live_from_start : bool;
  prefer_free_formats : bool;
  legacyserverconnect : bool;
  progress_hooks : list (Event -> result bool)
}.

Record environment := {
  extract_info : string -> result (gmap string pyval);
  download : YdlOpts -> string -> nat -> fetch_step
}.

(** ** Stream checker

    The query object is made from two literal options; its construction is
    taken to succeed. *)

(** [datetime.fromtimestamp(scheduled_ts, UTC).strftime("%Y-%m-%d %H:%M:%S UTC")]
    for the values the metadata can hold: [True] and [False] are the
    integers 1 and 0, a string is no number *)
Definition scheduled_time (scheduled_ts : pyval) : result string :=
  match scheduled_ts with
  | VInt ts =>
      match datetime.fromtimestamp ts with
      | Ok _ => Ok (datetime.strftime_utc ts)
      | Err e => Err e
      end
  | VBool b =>
      match datetime.fromtimestamp (if b then 1 else 0) with
      | Ok _ => Ok (datetime.strftime_utc (if b then 1 else 0))
      | Err e => Err e
      end
  | VStr _ => Err (TypeError "'str' object cannot be interpreted as an integer")
  | VNone => Err (TypeError "'NoneType' object cannot be interpreted as an integer")
  end.

Definition is_stream_live_or_exit (env : environment) (url : string)
    (logger : Logger) : M string :=
  observe (ExtractInfo url) ;;;
  match extract_info env url with
  | Err e =>
      log logger WARNING
        ("Could not extract info. Assuming generic stream. Reason: " ++ exn_str e) ;;;
      ret "generic"
  | Ok info =>
      let extractor := dict_get info "extractor" in
      let is_live := dict_get info "is_live" in
      let was_live := dict_get info "was_live" in
      let scheduled_ts := dict_get info "release_timestamp" in
      if eq_str extractor "generic" then
        log logger INFO
          "Generic stream detected (e.g. audio/mpeg). Proceeding without live checks." ;;;
        ret "generic"
      else if truthy is_live && negb (truthy was_live) then
        (if truthy scheduled_ts then
           match scheduled_time scheduled_ts with
           | Ok s =>
               log logger INFO ("Stream is scheduled to go live at " ++ s ++ ". Exiting.")
           | Err e => raise e
           end
         else
           log logger INFO "Stream is scheduled but no start time is available. Exiting.") ;;;
        py_exit 0
      else if truthy is_live && truthy was_live then
        log logger INFO "Stream has already ended. Exiting." ;;;
        py_exit 0
      else
        (if negb (truthy is_live) then
           log logger INFO "Video is not a live stream. Proceeding anyway."
         else ret tt) ;;;
        ret "structured"
  end.

(** ** Download function *)

Inductive thread := Alive (pc : nat) | Dead.

Definition is_alive (th : thread) : bool :=
  match th with Alive _ => true | Dead => false end.

(** the hook [lambda d: stop_flag.is_set() and (...).throw(Exception("Timeout reached"))],
    applied to the current state of the shared flag *)
Definition progress_hook (stop_flag : Event) : result bool :=
  if Event_is_set stop_flag then Err (Exception "Timeout reached") else Ok false.

Fixpoint call_hooks (hooks : list (Event -> result bool)) (stop_flag : Event)
    : result unit :=
  match hooks with
  | [] => Ok tt
  | h :: hs =>
      match h stop_flag with
      | Ok _ => call_hooks hs stop_flag
      | Err e => Err e
      end
  end.

(** how one second of the [with YoutubeDL(ydl_opts) as ydl:] block ends *)
Inductive step_end :=
| Goes                          (* [download] is still running *)
| Returns                       (* [download] returned *)
| Raises (e : exn)              (* [download] raised [e] *)
| Escapes (e : exn).            (* [e] was raised outside the [try] *)

(** What one second of the worker's use of the fetcher does. *)
Definition ydl_step (opts : YdlOpts) (st : fetch_step) (stop_flag : Event)
    : M step_end :=
  match st with
  | Work => ret Goes
  | Store path data => os.write_file path data ;;; ret Goes
  | Progress =>
      match call_hooks (progress_hooks opts) stop_flag with
      | Ok _ => ret Goes
      | Err e => ret (Raises e)
      end
  | Finish => ret Returns
  | Fault e => ret (Raises e)
  | Crash e => ret (Escapes e)
  end.

(** One second of the worker thread running [run_downloader].  What is
    raised outside the [try] ends the thread with a traceback and without a
    message of the logger. *)
Definition run_downloader (script : nat -> fetch_step) (opts : YdlOpts)
    (logger : Logger) (stop_flag : Event) (pc : nat) : M thread :=
  r <- ydl_step opts (script pc) stop_flag ;;
  match r with
  | Goes => ret (Alive (S pc))
  | Returns => observe ThreadExit ;;; ret Dead
  | Raises e =>
      observe (WorkerRaised e) ;;;
      log logger WARNING ("Download interrupted: " ++ exn_str e) ;;;
      observe ThreadExit ;;; ret Dead
  | Escapes e => observe (ThreadCrashed e) ;;; ret Dead
  end.

(** the waiting thread sleeps through one second *)
Definition pass_second : M unit := fun w => (Ret tt, tick w).

(** the wait of [thread.join(timeout=n)]: the worker runs until it is dead
    or [n] seconds have passed. *)
Fixpoint join_timeout (worker : Event -> nat -> M thread) (n : nat)
    (stop_flag : Event) (th : thread) : M thread :=
  match th with
  | Dead => ret Dead
  | Alive pc =>
      match n with
      | O => ret (Alive pc)
      | S n' =>
          th' <- worker stop_flag pc ;;
          match th' with
          | Dead => ret Dead
          | Alive _ => pass_second ;;; join_timeout worker n' stop_flag th'
          end
      end
  end.

(** [threading.TIMEOUT_MAX], in seconds *)
Definition TIMEOUT_MAX : Z := 9223372036.

(** [thread.join(timeout=timeout)] for an int [timeout]: a timeout above
    [TIMEOUT_MAX] is refused before any waiting, a negative one counts as 0 *)
Definition timed_join (worker : Event -> nat -> M thread) (timeout : Z)
    (stop_flag : Event) (th : thread) : M thread :=
  if (TIMEOUT_MAX <? timeout)%Z then
    raise (OverflowError "timestamp too large to convert to C _PyTime_t")
  else join_timeout worker (Z.to_nat timeout) stop_flag th.

(** [thread.join()]: the worker runs until it is dead; out of fuel, the
    caller is still waiting. *)
Fixpoint join (worker : Event -> nat -> M thread) (fuel : nat)
    (stop_flag : Event) (th : thread) : M unit :=
  match th with
  | Dead => ret tt
  | Alive pc =>
      match fuel with
      | O => fun w => (Hang, w)
      | S fuel' =>
          th' <- worker stop_flag pc ;;
          match th' with
          | Dead => ret tt
          | Alive _ => pass_second ;;; join worker fuel' stop_flag th'
          end
      end
  end.

Definition format_selector (max_resolution : option Z) : string :=
  match max_resolution with
  | Some r =>
      if negb (r =? 0)%Z
      then "bestvideo[height<=" ++ of_int r ++ "]+bestaudio/best[height<="
           ++ of_int r ++ "]/best"
      else "best"
  | None => "best"
  end.

Definition stopping_msg (duration : Z) : string :=
  "Stopping download after " ++ of_int duration ++ " seconds.".

Definition complete_msg (start_time end_time : datetime.t) : string :=
  "Download complete. Started at " ++ datetime.str start_time
  ++ ", ended at " ++ datetime.str end_time.

(** the [ydl_opts] dictionary of [download_with_timeout] *)
Definition capture_opts (output_path : string) (free_formats : bool)
    (max_resolution : option Z) (legacy_server_connect : bool) : YdlOpts :=
  {| outtmpl := output_path;
     format := format_selector max_resolution;
     noplaylist := true;
     live_from_start := true;
     prefer_free_formats := free_formats;
     legacyserverconnect := legacy_server_connect;
     progress_hooks := [progress_hook] |}.

Definition download_with_timeout (fuel : nat) (env : environment)
    (url output_path : string) (duration : Z) (logger : Logger)
    (free_formats : bool) (max_resolution : option Z)
    (legacy_server_connect : bool) : M (datetime.t * datetime.t) :=
  start_time <- now ;;
  let stop_flag := Event_new in
  let ydl_opts :=
    capture_opts output_path free_formats max_resolution legacy_server_connect in
  let worker := run_downloader (download env ydl_opts url) ydl_opts logger in
  observe (ThreadStart url) ;;;
  th <- timed_join worker duration stop_flag (Alive 0) ;;
  (if is_alive th then
     log logger INFO (stopping_msg duration) ;;;
     observe FlagSet ;;;
     let stop_flag := Event_set stop_flag in
     join worker fuel stop_flag th
   else ret tt) ;;;
  end_time <- now ;;
  log logger INFO (complete_msg start_time end_time) ;;;
  ret (start_time, end_time).

(** ** Write Internet Archive files *)

Definition files_xml (filename : string) : string :=
  "<files>" ++ nl ++
  "  <file name=" ++ dquote ++ filename ++ dquote ++ "/>" ++ nl ++
  "</files>" ++ nl.

Definition meta_xml (identifier : string)
    (title description creator license_url : option string) : string :=
  "<metadata>" ++ nl ++
  "  <title>" ++ str_or title identifier ++ "</title>" ++ nl ++
  "  <identifier>" ++ identifier ++ "</identifier>" ++ nl ++
  "  <description>" ++ str_or description EmptyString ++ "</description>" ++ nl ++
  "  <creator>" ++ str_or creator EmptyString ++ "</creator>" ++ nl ++
  "  <licenseurl>" ++ str_or license_url EmptyString ++ "</licenseurl>" ++ nl ++
  "  <mediatype>movies</mediatype>" ++ nl ++
  "</metadata>" ++ nl.

Definition write_internet_archive_metadata_files (output_dir identifier filename : string)
    (title description creator license_url : option string) : M unit :=
  let files_xml_path := posixpath.join output_dir (identifier ++ "_files.xml") in
  let meta_xml_path := posixpath.join output_dir (identifier ++ "_meta.xml") in
  os.write_file files_xml_path (files_xml filename) ;;;
  os.write_file meta_xml_path (meta_xml identifier title description creator license_url).

(** ** Filename builder *)

Definition generate_timestamped_output_template (start end_ : datetime.t)
    (prefix ext_template : string) : string :=
  let start_str := datetime.strftime_compact start in
  let end_str := datetime.strftime_compact end_ in
  prefix ++ "live_" ++ start_str ++ "_to_" ++ end_str ++ "." ++ ext_template.

(** ** Main entrypoint

    [main] is taken from the parsed arguments on: what [argparse] does with
    the command line is not part of the embedding. *)

Record Args := {
  url : string;
  output : option string;
  duration : Z;
  debug : bool;
  log_file : option string;
  prefix : string;
  output_dir : string;
  free_formats : bool;
  max_resolution : option Z;
  legacy_server_connect : bool;
  ia_title : option string;
  ia_description : option string;
  ia_creator : option string;
  ia_license : option string
}.

(** the body of the [for file in os.listdir(args.output_dir)] loop *)
Definition finalize_entry (args : Args) (logger : Logger) (final_template file : string)
    : M unit :=
  if startswith file "temp." && negb (endswith file ".part") then
    let ext := snd (posixpath.splitext file) in
    let final_name := replace final_template "%(ext)s" (lstrip ext ".") in
    let old_path := posixpath.join (output_dir args) file in
    let new_path := posixpath.join (output_dir args) final_name in
    os.move old_path new_path ;;;
    log logger INFO ("Renamed " ++ file ++ " → " ++ final_name) ;;;
    let identifier := fst (posixpath.splitext final_name) in
    write_internet_archive_metadata_files (output_dir args) identifier final_name
      (ia_title args) (ia_description args) (ia_creator args) (ia_license args)
  else ret tt.

(** the default path after the capture: build the final template, then
    rename and describe what the capture left in the output directory *)
Definition finalize_default (args : Args) (logger : Logger)
    (start end_ : datetime.t) : M unit :=
  let final_template :=
    generate_timestamped_output_template start end_ (prefix args) "%(ext)s" in
  files <- os.listdir (output_dir args) ;;
  for_each files (finalize_entry args logger final_template).

(** the [if not args.output: ... else: ...] block of [main] *)
Definition capture_and_finalize (fuel : nat) (env : environment) (args : Args)
    (logger : Logger) : M unit :=
  if String.eqb (str_or (output args) EmptyString) EmptyString then
    let temp_output := posixpath.join (output_dir args) "temp.%(ext)s" in
    se <- download_with_timeout fuel env (url args) temp_output (duration args) logger
            (free_formats args) (max_resolution args) (legacy_server_connect args) ;;
    finalize_default args logger (fst se) (snd se)
  else
    let out := str_or (output args) EmptyString in
    let output_path := posixpath.join (output_dir args) out in
    se <- download_with_timeout fuel env (url args) output_path (duration args) logger
            (free_formats args) (max_resolution args) (legacy_server_connect args) ;;
    let identifier := fst (posixpath.splitext (posixpath.basename out)) in
    write_internet_archive_metadata_files (output_dir args) identifier
      (posixpath.basename out)
      (ia_title args) (ia_description args) (ia_creator args) (ia_license args).

Definition main (fuel : nat) (env : environment) (args : Args) : M unit :=
  logger <- setup_logging (debug args) (log_file args) ;;
  os.makedirs (output_dir args) ;;;
  log logger INFO "Starting download..." ;;;
  stream_type <-
    (if contains "youtube.com" (url args) || contains "youtu.be" (url args)
     then is_stream_live_or_exit env (url args) logger
     else
       log logger INFO "Non-YouTube URL detected. Skipping live stream check." ;;;
       ret "generic") ;;
  capture_and_finalize fuel env args logger.

(** ** Vocabulary of the statements *)

(** the worker ends of its own accord at this step *)
Definition exits (st : fetch_step) : bool :=
  match st with
  | Finish | Fault _ | Crash _ => true
  | _ => false
  end.

(** the worker thread ends at this step, given the state of the flag *)
Definition stops (stop_flag : Event) (st : fetch_step) : bool :=
  match st with
  | Finish | Fault _ | Crash _ => true
  | Progress => Event_is_set stop_flag
  | _ => false
  end.

(** the exception [download] raises at this step, if any *)
Definition raised (stop_flag : Event) (st : fetch_step) : option exn :=
  match st with
  | Fault e => Some e
  | Progress =>
      if Event_is_set stop_flag then Some (Exception "Timeout reached") else None
  | _ => None
  end.

(** what the worker thread leaves in the trace when it ends at time [t] *)
Definition exit_events (t : Z) (stop_flag : Event) (st : fetch_step)
    : list (Z * event) :=
  match st with
  | Crash e => [(t, ThreadCrashed e)]
  | _ =>
      match raised stop_flag st with
      | Some e =>
          [(t, WorkerRaised e);
           (t, Log WARNING ("Download interrupted: " ++ exn_str e));
           (t, ThreadExit)]
      | None => [(t, ThreadExit)]
      end
  end.

(** how many times the flag is set in a stretch of the trace *)
Fixpoint count_flag_sets (evs : list (Z * event)) : nat :=
  match evs with
  | [] => O
  | (_, FlagSet) :: evs' => S (count_flag_sets evs')
  | _ :: evs' => count_flag_sets evs'
  end.

(** [sub] occurs somewhere in [s] *)
Definition occurs_in (sub s : string) : Prop :=
  exists pre post, s = pre ++ sub ++ post.

(** a directory entry the default path renames *)
Definition is_artifact (file : string) : bool :=
  startswith file "temp." && negb (endswith file ".part").


(** a value of [release_timestamp] for which the scheduled time can be
    printed: no string, and a number of the years 1 to 9999 *)
Definition printable (scheduled_ts : pyval) : bool :=
  match scheduled_ts with
  | VInt ts => datetime.representable ts
  | VBool _ => true
  | VNone | VStr _ => false
  end.

(** [open(path, "w")] finds the directory of [path], and no directory at
    [path] itself *)
Definition writable (path : string) (w : world) : bool :=
  os.parent_ok path w && negb (os.isdir path w).

(** the computation only adds events that satisfy [P] to the trace *)
Definition appends {A} (P : event -> Prop) (m : M A) : Prop :=
  forall w, exists evs,
    trace (snd (m w)) = (trace w ++ evs)%list /\
    Forall (fun te => P (snd te)) evs.

(** the world after [logger.<lv>(msg)] *)
Definition logged (logger : Logger) (lv : level) (msg : string) (w : world) : world :=
  snd (log logger lv msg w).

(** ** Scenarios *)

Module Scenario.

Definition epoch_2024 : Z := 1704067200.

Definition w0 : world :=
  {| clock := epoch_2024; utcoffset := fun _ => 0; fs := ∅; dirs := ∅; trace := [] |}.

(** the logger of a run without [--debug] and without [--log-file] *)
Definition console : Logger := {| log_level := INFO; log_sink := None |}.

(** the logger of a run with [--log-file ./run.log] *)
Definition to_file : Logger := {| log_level := INFO; log_sink := Some "./run.log" |}.

Definition args0 : Args :=
  {| url := "https://example.org/live.mp3"; output := None; duration := 300;
     debug := false; log_file := None; prefix := "show_"; output_dir := ".";
     free_formats := false; max_resolution := None;
     legacy_server_connect := false; ia_title := None; ia_description := None;
     ia_creator := None; ia_license := None |}.

Definition with_url (u : string) (a : Args) : Args :=
  {| url := u; output := output a; duration := duration a; debug := debug a;
     log_file := log_file a; prefix := prefix a; output_dir := output_dir a;
     free_formats := free_formats a; max_resolution := max_resolution a;
     legacy_server_connect := legacy_server_connect a; ia_title := ia_title a;
     ia_description := ia_description a; ia_creator := ia_creator a;
     ia_license := ia_license a |}.



Definition no_info : string -> result (gmap string pyval) :=
  fun _ => Err (Exception "unsupported url").

(** a live stream: the fetcher stores the artifact, then reports progress
    every second and never leaves on its own *)
Definition env_live : environment :=
  {| extract_info := no_info;
     download := fun _ _ n =>
       if (n =? 0)%nat then Store "./temp.mp4" "data" else Progress |}.

(** a short file: stored in the first second, complete after three *)
Definition env_short : environment :=
  {| extract_info := no_info;
     download := fun _ _ n =>
       if (n =? 0)%nat then Store "./temp.mp4" "data"
       else if (n <? 3)%nat then Progress else Finish |}.


(** a fetcher blocked in I/O that never reports progress *)
Definition env_silent : environment :=
  {| extract_info := no_info; download := fun _ _ _ => Work |}.

(** a fetcher that works for seven seconds before its first progress event *)
Definition env_slow : environment :=
  {| extract_info := no_info;
     download := fun _ _ n => if (n =? 7)%nat then Progress else Work |}.




Definition info_of (l : list (string * pyval)) : string -> result (gmap string pyval) :=
  fun _ => Ok (list_to_map l).

Definition env_info (l : list (string * pyval)) : environment :=
  {| extract_info := info_of l; download := download env_short |}.

Definition youtube_url : string := "https://www.youtube.com/watch?v=abc".

Definition generic_info : list (string * pyval) :=
  [("extractor", VStr "generic"); ("is_live", VBool true)].

Definition deferred_info : list (string * pyval) :=
  [("extractor", VStr "youtube"); ("is_live", VBool true);
   ("was_live", VBool false); ("release_timestamp", VInt epoch_2024)].

(** the start time given in milliseconds *)
Definition millis_info : list (string * pyval) :=
  [("extractor", VStr "youtube"); ("is_live", VBool true);
   ("was_live", VBool false); ("release_timestamp", VInt (epoch_2024 * 1000))].

Definition unscheduled_info : list (string * pyval) :=
  [("extractor", VStr "youtube"); ("is_live", VBool true)].

Definition ended_info : list (string * pyval) :=
  [("extractor", VStr "youtube"); ("is_live", VBool true);
   ("was_live", VBool true)].

Definition video_info : list (string * pyval) :=
  [("extractor", VStr "youtube"); ("is_live", VBool false)].

End Scenario.

(** From here on [++] joins lists and [+:+] joins strings. *)
Open Scope list_scope.

(** ** The logger *)

Lemma log_run logger lv msg w :
  log logger lv msg w = (Ret tt, logged logger lv msg w).
Proof.
  unfold logged, log, bind, observe, os.append_file, ret.
  destruct (levelno _ <=? levelno _)%Z; [destruct (log_sink logger) |]; reflexivity.
Qed.

Lemma logged_clock logger lv msg w : clock (logged logger lv msg w) = clock w.
Proof.
  unfold logged, log, bind, observe, os.append_file, ret.
  destruct (levelno _ <=? levelno _)%Z; [destruct (log_sink logger) |]; reflexivity.
Qed.

Lemma logged_trace logger lv msg w :
  trace (logged logger lv msg w) = trace w ++ [(clock w, Log lv msg)].
Proof.
  unfold logged, log, bind, observe, os.append_file, ret.
  destruct (levelno _ <=? levelno _)%Z; [destruct (log_sink logger) |]; reflexivity.
Qed.

Lemma logged_dirs logger lv msg w : dirs (logged logger lv msg w) = dirs w.
Proof.
  unfold logged, log, bind, observe, os.append_file, ret.
  destruct (levelno _ <=? levelno _)%Z; [destruct (log_sink logger) |]; reflexivity.
Qed.

(** the logger writes to its own file only *)
Lemma logged_fs logger lv msg w path :
  log_sink logger <> Some path ->
  fs (logged logger lv msg w) !! path = fs w !! path.
Proof.
  intros Hp. unfold logged, log, bind, observe, os.append_file, ret.
  destruct (levelno _ <=? levelno _)%Z; [destruct (log_sink logger) as [f |] |];
    try reflexivity.
  cbn. apply lookup_insert_ne. congruence.
Qed.

(** without a log file the logger writes nothing *)
Lemma logged_console logger lv msg w :
  log_sink logger = None -> fs (logged logger lv msg w) = fs w.
Proof.
  intros Hs. unfold logged, log, bind, observe, ret. rewrite Hs.
  destruct (levelno _ <=? levelno _)%Z; reflexivity.
Qed.

(** ** The worker thread and the two joins *)

Section Worker.

Variable script : nat -> fetch_step.
Variable opts : YdlOpts.
Variable logger : Logger.
Hypothesis Hhooks : progress_hooks opts = [progress_hook].

Let worker := run_downloader script opts logger.

Lemma run_downloader_stops f pc w :
  stops f (script pc) = true ->
  exists w', worker f pc w = (Ret Dead, w') /\
             clock w' = clock w /\
             trace w' = trace w ++ exit_events (clock w) f (script pc).
Proof.
  unfold worker, run_downloader, ydl_step, exit_events, raised, stops.
  destruct (script pc) as [| p d | | | e | e]; try discriminate.
  - rewrite Hhooks. unfold call_hooks, progress_hook. intros ->.
    unfold bind, observe, ret. rewrite log_run. eexists. split; [reflexivity |].
    cbn [clock trace emit]. rewrite logged_clock, logged_trace. cbn [clock trace emit].
    rewrite <- !app_assoc. auto.
  - intros _. eexists. split; [reflexivity |]. auto.
  - intros _. unfold bind, observe, ret. rewrite log_run. eexists.
    split; [reflexivity |].
    cbn [clock trace emit]. rewrite logged_clock, logged_trace. cbn [clock trace emit].
    rewrite <- !app_assoc. auto.
  - intros _. eexists. split; [reflexivity |]. auto.
Qed.

Lemma run_downloader_goes f pc w :
  stops f (script pc) = false ->
  exists w', worker f pc w = (Ret (Alive (S pc)), w') /\
             clock w' = clock w /\ trace w' = trace w.
Proof.
  unfold worker, run_downloader, ydl_step, stops.
  destruct (script pc) as [| p d | | | e | e]; try discriminate.
  - intros _. eexists. cbn. eauto.
  - intros _. eexists. cbn. eauto.
  - rewrite Hhooks. unfold call_hooks, progress_hook. intros ->.
    eexists. cbn. eauto.
Qed.

(** the deadline passes with the worker still running *)
Lemma join_timeout_alive f n : forall pc w,
  (forall j, (j < n)%nat -> stops f (script (pc + j)) = false) ->
  exists w', join_timeout worker n f (Alive pc) w = (Ret (Alive (pc + n)), w') /\
             clock w' = clock w + Z.of_nat n /\ trace w' = trace w.
Proof.
  induction n as [| n IH]; intros pc w Hgo.
  - exists w. cbn. rewrite Nat.add_0_r. split; [reflexivity | split; [lia | reflexivity]].
  - destruct (run_downloader_goes f pc w) as (w1 & E1 & C1 & T1).
    { specialize (Hgo O). rewrite Nat.add_0_r in Hgo. apply Hgo. lia. }
    destruct (IH (S pc) (tick w1)) as (w2 & E2 & C2 & T2).
    { intros j Hj. replace (S pc + j)%nat with (pc + S j)%nat by lia. apply Hgo. lia. }
    exists w2. cbn [join_timeout]. unfold bind at 1. rewrite E1.
    unfold bind, pass_second. rewrite E2.
    replace (pc + S n)%nat with (S pc + n)%nat by lia.
    split; [reflexivity |]. rewrite C2, T2. cbn. split; [lia | assumption].
Qed.

(** the worker ends [k] seconds into the wait *)
Lemma join_timeout_dead f n : forall k pc w,
  (k < n)%nat ->
  (forall j, (j < k)%nat -> stops f (script (pc + j)) = false) ->
  stops f (script (pc + k)) = true ->
  exists w', join_timeout worker n f (Alive pc) w = (Ret Dead, w') /\
             clock w' = clock w + Z.of_nat k /\
             trace w' = trace w ++ exit_events (clock w + Z.of_nat k) f (script (pc + k)).
Proof.
  induction n as [| n IH]; intros k pc w Hk Hgo Hstop; [lia |].
  destruct k as [| k].
  - rewrite Nat.add_0_r in *.
    destruct (run_downloader_stops f pc w Hstop) as (w1 & E1 & C1 & T1).
    exists w1. cbn [join_timeout]. unfold bind. rewrite E1.
    rewrite Z.add_0_r. auto.
  - destruct (run_downloader_goes f pc w) as (w1 & E1 & C1 & T1).
    { specialize (Hgo O). rewrite Nat.add_0_r in Hgo. apply Hgo. lia. }
    destruct (IH k (S pc) (tick w1)) as (w2 & E2 & C2 & T2).
    { lia. }
    { intros j Hj. replace (S pc + j)%nat with (pc + S j)%nat by lia. apply Hgo. lia. }
    { replace (S pc + k)%nat with (pc + S k)%nat by lia. assumption. }
    exists w2. cbn [join_timeout]. unfold bind at 1. rewrite E1.
    unfold bind, pass_second. rewrite E2. split; [reflexivity |].
    rewrite C2, T2. cbn [tick clock trace]. rewrite C1, T1.
    replace (S pc + k)%nat with (pc + S k)%nat by lia.
    replace (clock w + 1 + Z.of_nat k) with (clock w + Z.of_nat (S k)) by lia.
    auto.
Qed.

(** the unbounded join is still waiting when the fuel is spent *)
Lemma join_hang f fuel : forall pc w,
  (forall j, (j < fuel)%nat -> stops f (script (pc + j)) = false) ->
  exists w', join worker fuel f (Alive pc) w = (Hang, w') /\
             clock w' = clock w + Z.of_nat fuel /\ trace w' = trace w.
Proof.
  induction fuel as [| n IH]; intros pc w Hgo.
  - exists w. cbn. split; [reflexivity | split; [lia | reflexivity]].
  - destruct (run_downloader_goes f pc w) as (w1 & E1 & C1 & T1).
    { specialize (Hgo O). rewrite Nat.add_0_r in Hgo. apply Hgo. lia. }
    destruct (IH (S pc) (tick w1)) as (w2 & E2 & C2 & T2).
    { intros j Hj. replace (S pc + j)%nat with (pc + S j)%nat by lia. apply Hgo. lia. }
    exists w2. cbn [join]. unfold bind at 1. rewrite E1.
    unfold bind, pass_second. rewrite E2.
    split; [reflexivity |]. rewrite C2, T2. cbn. split; [lia | assumption].
Qed.

(** the unbounded join returns when the worker ends *)
Lemma join_returns f fuel : forall k pc w,
  (k < fuel)%nat ->
  (forall j, (j < k)%nat -> stops f (script (pc + j)) = false) ->
  stops f (script (pc + k)) = true ->
  exists w', join worker fuel f (Alive pc) w = (Ret tt, w') /\
             clock w' = clock w + Z.of_nat k /\
             trace w' = trace w ++ exit_events (clock w + Z.of_nat k) f (script (pc + k)).
Proof.
  induction fuel as [| n IH]; intros k pc w Hk Hgo Hstop; [lia |].
  destruct k as [| k].
  - rewrite Nat.add_0_r in *.
    destruct (run_downloader_stops f pc w Hstop) as (w1 & E1 & C1 & T1).
    exists w1. cbn [join]. unfold bind. rewrite E1.
    rewrite Z.add_0_r. auto.
  - destruct (run_downloader_goes f pc w) as (w1 & E1 & C1 & T1).
    { specialize (Hgo O). rewrite Nat.add_0_r in Hgo. apply Hgo. lia. }
    destruct (IH k (S pc) (tick w1)) as (w2 & E2 & C2 & T2).
    { lia. }
    { intros j Hj. replace (S pc + j)%nat with (pc + S j)%nat by lia. apply Hgo. lia. }
    { replace (S pc + k)%nat with (pc + S k)%nat by lia. assumption. }
    exists w2. cbn [join]. unfold bind at 1. rewrite E1.
    unfold bind, pass_second. rewrite E2. split; [reflexivity |].
    rewrite C2, T2. cbn [tick clock trace]. rewrite C1, T1.
    replace (S pc + k)%nat with (pc + S k)%nat by lia.
    replace (clock w + 1 + Z.of_nat k) with (clock w + Z.of_nat (S k)) by lia.
    auto.
Qed.

(** within any bound, either no step ends the worker or there is a first
    one that does *)
Lemma first_stop f pc n :
  (forall j, (j < n)%nat -> stops f (script (pc + j)) = false) \/
  (exists k, (k < n)%nat /\
             (forall j, (j < k)%nat -> stops f (script (pc + j)) = false) /\
             stops f (script (pc + k)) = true).
Proof.
  induction n as [| n [IH | (k & Hk & Hgo & Hstop)]].
  - left. intros j Hj. lia.
  - destruct (stops f (script (pc + n))) eqn:E.
    + right. exists n. split; [lia | split; assumption].
    + left. intros j Hj. destruct (Nat.eq_dec j n) as [-> | Hne]; [assumption |].
      apply IH. lia.
  - right. exists k. split; [lia | split; assumption].
Qed.

End Worker.

(** ** The four ways a bounded capture can go *)

Section Capture.

Variable env : environment.
Variables url output_path : string.
Variable duration : Z.
Variable logger : Logger.
Variable free_formats : bool.
Variable max_resolution : option Z.
Variable legacy : bool.

Local Abbreviation opts :=
  (capture_opts output_path free_formats max_resolution legacy).
Local Abbreviation script := (download env opts url).
Local Abbreviation nd := (Z.to_nat duration).
Local Abbreviation capture fuel :=
  (download_with_timeout fuel env url output_path duration logger
     free_formats max_resolution legacy).
Local Abbreviation armed := (Event_set Event_new).

(** (o) the timeout is more than [thread.join] takes: the worker has been
    started, and the exception leaves the call *)
Lemma capture_overflows fuel w :
  TIMEOUT_MAX < duration ->
  capture fuel w
  = (Raise (OverflowError "timestamp too large to convert to C _PyTime_t"),
     emit (ThreadStart url) w).
Proof.
  intros Hd. unfold download_with_timeout, bind, now, observe, timed_join, raise.
  assert ((TIMEOUT_MAX <? duration)%Z = true) as -> by (apply Z.ltb_lt; exact Hd).
  reflexivity.
Qed.

(** (a) the worker ends by itself, [k] seconds in and before the deadline *)
Lemma capture_completes fuel k w :
  duration <= TIMEOUT_MAX ->
  (k < nd)%nat ->
  (forall j, (j < k)%nat -> stops Event_new (script j) = false) ->
  stops Event_new (script k) = true ->
  exists w',
    capture fuel w = (Ret (clock w, clock w + Z.of_nat k), w') /\
    trace w' =
      trace w ++ [(clock w, ThreadStart url)]
      ++ exit_events (clock w + Z.of_nat k) Event_new (script k)
      ++ [(clock w + Z.of_nat k,
           Log INFO (complete_msg (clock w) (clock w + Z.of_nat k)))].
Proof.
  intros Hd Hk Hgo Hstop.
  destruct (join_timeout_dead script opts logger eq_refl Event_new nd k 0
              (emit (ThreadStart url) w) Hk Hgo Hstop) as (w1 & E1 & C1 & T1).
  unfold download_with_timeout, bind, now, observe, timed_join.
  assert ((TIMEOUT_MAX <? duration)%Z = false) as -> by (apply Z.ltb_ge; exact Hd).
  rewrite E1. cbn [is_alive]. unfold ret. rewrite log_run.
  cbn [emit clock trace Nat.add] in *.
  eexists. split.
  - rewrite C1. reflexivity.
  - rewrite logged_trace, T1, C1. rewrite <- !app_assoc. reflexivity.
Qed.

(** (b) the deadline passes, the flag is raised, and the worker ends
    [k] seconds later *)
Lemma capture_cancelled fuel k w :
  duration <= TIMEOUT_MAX ->
  (forall j, (j < nd)%nat -> stops Event_new (script j) = false) ->
  (k < fuel)%nat ->
  (forall j, (j < k)%nat -> stops armed (script (nd + j)) = false) ->
  stops armed (script (nd + k)) = true ->
  exists w',
    capture fuel w
      = (Ret (clock w, clock w + Z.of_nat nd + Z.of_nat k), w') /\
    trace w' =
      trace w
      ++ [(clock w, ThreadStart url);
          (clock w + Z.of_nat nd, Log INFO (stopping_msg duration));
          (clock w + Z.of_nat nd, FlagSet)]
      ++ exit_events (clock w + Z.of_nat nd + Z.of_nat k) armed (script (nd + k))
      ++ [(clock w + Z.of_nat nd + Z.of_nat k,
           Log INFO (complete_msg (clock w)
                       (clock w + Z.of_nat nd + Z.of_nat k)))].
Proof.
  intros Hd Hrun Hk Hgo Hstop.
  destruct (join_timeout_alive script opts logger eq_refl Event_new nd 0
              (emit (ThreadStart url) w) Hrun) as (w1 & E1 & C1 & T1).
  destruct (join_returns script opts logger eq_refl armed fuel k nd
              (emit FlagSet (logged logger INFO (stopping_msg duration) w1))
              Hk Hgo Hstop) as (w2 & E2 & C2 & T2).
  unfold download_with_timeout, bind, now, observe, timed_join.
  assert ((TIMEOUT_MAX <? duration)%Z = false) as -> by (apply Z.ltb_ge; exact Hd).
  rewrite E1. cbn [is_alive Nat.add]. rewrite log_run.
  rewrite E2. unfold ret. rewrite log_run.
  cbn [emit trace clock Nat.add fst snd] in *.
  rewrite logged_clock in C2. rewrite logged_trace, logged_clock in T2.
  eexists. split.
  - rewrite C2, C1. reflexivity.
  - rewrite logged_trace, T2, C2, T1, C1.
    rewrite <- !app_assoc. reflexivity.
Qed.

(** (c) the deadline passes, the flag is raised, and the worker is still
    running when the fuel is spent *)
Lemma capture_hangs fuel (w : world) :
  duration <= TIMEOUT_MAX ->
  (forall j, (j < nd)%nat -> stops Event_new (script j) = false) ->
  (forall j, (j < fuel)%nat -> stops armed (script (nd + j)) = false) ->
  exists w',
    capture fuel w = (Hang, w') /\
    trace w' =
      trace w
      ++ [(clock w, ThreadStart url);
          (clock w + Z.of_nat nd, Log INFO (stopping_msg duration));
          (clock w + Z.of_nat nd, FlagSet)].
Proof.
  intros Hd Hrun Hgo.
  destruct (join_timeout_alive script opts logger eq_refl Event_new nd 0
              (emit (ThreadStart url) w) Hrun) as (w1 & E1 & C1 & T1).
  destruct (join_hang script opts logger eq_refl armed fuel nd
              (emit FlagSet (logged logger INFO (stopping_msg duration) w1))
              Hgo) as (w2 & E2 & C2 & T2).
  unfold download_with_timeout, bind, now, observe, timed_join.
  assert ((TIMEOUT_MAX <? duration)%Z = false) as -> by (apply Z.ltb_ge; exact Hd).
  rewrite E1. cbn [is_alive Nat.add]. rewrite log_run.
  rewrite E2.
  cbn [emit trace clock Nat.add fst snd] in *.
  rewrite logged_trace, logged_clock in T2.
  eexists. split; [reflexivity |].
  rewrite T2, T1, C1. rewrite <- !app_assoc. reflexivity.
Qed.

(** Every script is of one of three kinds. *)
Lemma capture_cases fuel :
  (exists k, (k < nd)%nat /\
     (forall j, (j < k)%nat -> stops Event_new (script j) = false) /\
     stops Event_new (script k) = true) \/
  ((forall j, (j < nd)%nat -> stops Event_new (script j) = false) /\
   exists k, (k < fuel)%nat /\
     (forall j, (j < k)%nat -> stops armed (script (nd + j)) = false) /\
     stops armed (script (nd + k)) = true) \/
  ((forall j, (j < nd)%nat -> stops Event_new (script j) = false) /\
   (forall j, (j < fuel)%nat -> stops armed (script (nd + j)) = false)).
Proof.
  destruct (first_stop script Event_new 0 nd) as [Hrun | Hex].
  - destruct (first_stop script armed nd fuel) as [Hgo | Hex].
    + right. right. split; assumption.
    + right. left. split; assumption.
  - left. exact Hex.
Qed.

End Capture.

(** ** Facts about the vocabulary *)

Lemma stops_new st : stops Event_new st = exits st.
Proof. destruct st; reflexivity. Qed.

Lemma stops_armed st :
  stops (Event_set Event_new) st = true <-> exits st = true \/ st = Progress.
Proof.
  destruct st; cbn; split; intros H; auto; try discriminate;
    destruct H as [H | H]; discriminate.
Qed.

Lemma exit_events_no_flag t f st t' : ~ In (t', FlagSet) (exit_events t f st).
Proof.
  unfold exit_events. destruct st; cbn; try destruct (Event_is_set f); cbn;
    intuition discriminate.
Qed.

Lemma exit_events_stamp t f st t' e :
  In (t', e) (exit_events t f st) -> t' = t.
Proof.
  unfold exit_events. destruct st; cbn; try destruct (Event_is_set f); cbn;
    intuition congruence.
Qed.

(** the worker's thread has ended: it returned or it crashed *)
Lemma exit_events_end t f st :
  In (t, ThreadExit) (exit_events t f st) \/
  exists e, In (t, ThreadCrashed e) (exit_events t f st).
Proof.
  unfold exit_events. destruct st; cbn; try destruct (Event_is_set f); cbn; eauto.
Qed.

Lemma exit_events_thread_exit t f st :
  (forall e, st <> Crash e) -> In (t, ThreadExit) (exit_events t f st).
Proof.
  intros Hst. unfold exit_events.
  destruct st as [| p d | | | e | e]; try (exfalso; exact (Hst e eq_refl));
    cbn; try destruct (Event_is_set f); cbn; auto.
Qed.


Lemma count_flag_sets_app evs1 evs2 :
  count_flag_sets (evs1 ++ evs2) = (count_flag_sets evs1 + count_flag_sets evs2)%nat.
Proof.
  induction evs1 as [| [t e] evs1 IH]; [reflexivity |].
  destruct e; cbn; rewrite IH; reflexivity.
Qed.

Lemma count_flag_sets_exit t f st : count_flag_sets (exit_events t f st) = O.
Proof.
  unfold exit_events. destruct st; cbn; try destruct (Event_is_set f); reflexivity.
Qed.

(** ** Bounded capture: the claims *)

Section CaptureClaims.

Variable env : environment.
Variables url output_path : string.
Variable duration : Z.
Variable logger : Logger.
Variable free_formats : bool.
Variable max_resolution : option Z.
Variable legacy : bool.

Local Abbreviation opts :=
  (capture_opts output_path free_formats max_resolution legacy).
Local Abbreviation script := (download env opts url).
Local Abbreviation nd := (Z.to_nat duration).
Local Abbreviation capture fuel :=
  (download_with_timeout fuel env url output_path duration logger
     free_formats max_resolution legacy).
Local Abbreviation armed := (Event_set Event_new).

(** A worker that at some step leaves by itself, or reaches a progress
    event at or after the deadline, lets the capture return once the fuel
    covers that step. *)
Lemma capture_returns n (w : world) :
  duration <= TIMEOUT_MAX ->
  exits (script n) = true \/ (script n = Progress /\ (nd <= n)%nat) ->
  forall fuel, (n < fuel)%nat ->
  exists end_time w', capture fuel w = (Ret (clock w, end_time), w').
Proof.
  intros Hd Hn fuel Hfuel.
  destruct (capture_cases env url output_path duration free_formats
              max_resolution legacy fuel)
    as [(k & Hk & Hgo & Hstop) | [(Hrun & k & Hk & Hgo & Hstop) | (Hrun & Hgo)]].
  - destruct (capture_completes env url output_path duration logger free_formats
                max_resolution legacy fuel k w Hd Hk Hgo Hstop) as (w' & E & _).
    eauto.
  - destruct (capture_cancelled env url output_path duration logger free_formats
                max_resolution legacy fuel k w Hd Hrun Hk Hgo Hstop) as (w' & E & _).
    eauto.
  - exfalso. destruct (Nat.lt_ge_cases n nd) as [Hlt | Hge].
    + specialize (Hrun n Hlt). rewrite stops_new in Hrun.
      destruct Hn as [Hn | [_ Hn]]; [congruence | lia].
    + specialize (Hgo (n - nd)%nat). replace (nd + (n - nd))%nat with n in Hgo by lia.
      assert (stops armed (script n) = true) as Hs.
      { apply stops_armed. destruct Hn as [Hn | [Hn _]]; auto. }
      rewrite Hgo in Hs by lia. discriminate.
Qed.

(** C1, as amended: for every [duration] from 0 to [TIMEOUT_MAX], when the
    worker never leaves by itself, the capture sets the cancellation flag,
    at [start + duration] and at no other time, whether the call then
    returns or is still waiting for the worker; when it returns, it returns
    [(start, end)] with [end >= start + duration].  Above [TIMEOUT_MAX] the
    timed join raises [OverflowError] as soon as the worker is started: the
    flag is never set and nothing is returned. *)
Theorem cancellation_not_before_deadline fuel (w : world) :
  (forall n, exits (script n) = false) ->
  (0 <= duration <= TIMEOUT_MAX ->
   (exists evs,
      trace (snd (capture fuel w)) = trace w ++ evs /\
      In (clock w + duration, FlagSet) evs /\
      (forall t, In (t, FlagSet) evs -> t = clock w + duration)) /\
   (fst (capture fuel w) = Hang \/
    exists end_time,
      fst (capture fuel w) = Ret (clock w, end_time) /\
      clock w + duration <= end_time)) /\
  (TIMEOUT_MAX < duration ->
   fst (capture fuel w)
   = Raise (OverflowError "timestamp too large to convert to C _PyTime_t") /\
   trace (snd (capture fuel w)) = trace w ++ [(clock w, ThreadStart url)]).
Proof.
  intros Hnever. split.
  - intros [Hd0 Hd].
    destruct (capture_cases env url output_path duration free_formats
                max_resolution legacy fuel)
      as [(k & Hk & Hgo & Hstop) | [(Hwait & k & Hk & Hgo & Hstop) | (Hwait & Hgo)]].
    + rewrite stops_new, Hnever in Hstop. discriminate.
    + destruct (capture_cancelled env url output_path duration logger free_formats
                  max_resolution legacy fuel k w Hd Hwait Hk Hgo Hstop) as (w1 & E & T).
      rewrite E. cbn [fst snd]. rewrite Z2Nat.id in * by assumption. split.
      * eexists. split; [exact T |]. split.
        -- apply in_or_app. left. cbn. auto.
        -- intros t Ht. apply in_app_or in Ht. destruct Ht as [Ht | Ht].
           ++ cbn in Ht. destruct Ht as [Ht | [Ht | [Ht | []]]]; inversion Ht; reflexivity.
           ++ apply in_app_or in Ht. destruct Ht as [Ht | Ht].
              ** exfalso. exact (exit_events_no_flag _ _ _ _ Ht).
              ** cbn in Ht. destruct Ht as [Ht | []]. discriminate.
      * right. eexists. split; [reflexivity | lia].
    + destruct (capture_hangs env url output_path duration logger free_formats
                  max_resolution legacy fuel w Hd Hwait Hgo) as (w1 & E & T).
      rewrite E. cbn [fst snd]. rewrite Z2Nat.id in * by assumption. split.
      * eexists. split; [exact T |]. split.
        -- cbn. auto.
        -- intros t Ht. cbn in Ht.
           destruct Ht as [Ht | [Ht | [Ht | []]]]; inversion Ht; reflexivity.
      * left. reflexivity.
  - intros Hd.
    rewrite (capture_overflows env url output_path duration logger free_formats
               max_resolution legacy fuel w Hd).
    split; reflexivity.
Qed.

(** C2, as amended: when the worker leaves by itself [k] seconds after the
    start, before [duration] seconds have passed, and [duration] is at most
    [TIMEOUT_MAX], the capture returns with [end = start + k], the time the
    worker ended, and the cancellation flag is set at no point of the call.
    Above [TIMEOUT_MAX] the timed join raises [OverflowError]: the flag is
    not set either, but nothing is returned. *)
Theorem natural_completion_leaves_flag_unset fuel (w : world) k :
  Z.of_nat k < duration ->
  (forall j, (j < k)%nat -> exits (script j) = false) ->
  exits (script k) = true ->
  (duration <= TIMEOUT_MAX ->
   exists w',
     capture fuel w = (Ret (clock w, clock w + Z.of_nat k), w') /\
     exists evs,
       trace w' = trace w ++ evs /\
       (In (clock w + Z.of_nat k, ThreadExit) evs \/
        exists e, In (clock w + Z.of_nat k, ThreadCrashed e) evs) /\
       (forall t, ~ In (t, FlagSet) evs)) /\
  (TIMEOUT_MAX < duration ->
   fst (capture fuel w)
   = Raise (OverflowError "timestamp too large to convert to C _PyTime_t") /\
   trace (snd (capture fuel w)) = trace w ++ [(clock w, ThreadStart url)]).
Proof.
  intros Hk Hgo Hstop. split.
  - intros Hd.
    destruct (capture_completes env url output_path duration logger free_formats
                max_resolution legacy fuel k w Hd) as (w' & E & T).
    + lia.
    + intros j Hj. rewrite stops_new. auto.
    + rewrite stops_new. assumption.
    + exists w'. split; [exact E |]. eexists. split; [exact T |]. split.
      * destruct (exit_events_end (clock w + Z.of_nat k) Event_new (script k))
          as [He | (e & He)].
        -- left. apply in_or_app. right. apply in_or_app. left. exact He.
        -- right. exists e. apply in_or_app. right. apply in_or_app. left. exact He.
      * intros t Ht. apply in_app_or in Ht. destruct Ht as [Ht | Ht].
        -- cbn in Ht. destruct Ht as [Ht | []]. discriminate.
        -- apply in_app_or in Ht. destruct Ht as [Ht | Ht].
           ++ exact (exit_events_no_flag _ _ _ _ Ht).
           ++ cbn in Ht. destruct Ht as [Ht | []]. discriminate.
  - intros Hd.
    rewrite (capture_overflows env url output_path duration logger free_formats
               max_resolution legacy fuel w Hd).
    split; reflexivity.
Qed.



(** C4, as amended: the join after cancellation has no bound of its own.
    For a [duration] of at most [TIMEOUT_MAX], the capture returns exactly
    when the worker at some step leaves by itself or reaches a progress
    event at or after the deadline; for a worker that does neither, the
    orchestrator waits for ever. *)
Theorem capture_returns_iff_worker_ends (w : world) :
  duration <= TIMEOUT_MAX ->
  ((exists n, exits (script n) = true \/ (script n = Progress /\ (nd <= n)%nat)) ->
   exists fuel0, forall fuel, (fuel0 <= fuel)%nat ->
     exists end_time w', capture fuel w = (Ret (clock w, end_time), w')) /\
  ((forall n, exits (script n) = false /\ (script n = Progress -> (n < nd)%nat)) ->
   forall fuel, exists w', capture fuel w = (Hang, w')).
Proof.
  intros Hd. split.
  - intros (n & Hn). exists (S n). intros fuel Hfuel.
    apply (capture_returns n w Hd Hn). lia.
  - intros Hnever fuel.
    destruct (capture_cases env url output_path duration free_formats
                max_resolution legacy fuel)
      as [(k & Hk & Hgo & Hstop) | [(Hwait & k & Hk & Hgo & Hstop) | (Hwait & Hgo)]].
    + rewrite stops_new in Hstop. destruct (Hnever k) as [Hk' _]. congruence.
    + apply stops_armed in Hstop. destruct (Hnever (nd + k)%nat) as [He Hp].
      destruct Hstop as [Hstop | Hstop]; [congruence |].
      specialize (Hp Hstop). lia.
    + destruct (capture_hangs env url output_path duration logger free_formats
                  max_resolution legacy fuel w Hd Hwait Hgo) as (w1 & E & _).
      eauto.
Qed.

End CaptureClaims.

(** the flag is set at most once in a capture *)
Lemma capture_sets_flag_once fuel env url output_path duration logger ff mr legacy
    (w : world) :
  exists evs,
    trace (snd (download_with_timeout fuel env url output_path duration logger
                  ff mr legacy w)) = trace w ++ evs /\
    (count_flag_sets evs <= 1)%nat.
Proof.
  destruct (Z_le_gt_dec duration TIMEOUT_MAX) as [Hd | Hd].
  - destruct (capture_cases env url output_path duration ff mr legacy fuel)
      as [(k & Hk & Hgo & Hstop) | [(Hwait & k & Hk & Hgo & Hstop) | (Hwait & Hgo)]].
    + destruct (capture_completes env url output_path duration logger ff mr legacy
                  fuel k w Hd Hk Hgo Hstop) as (w1 & E & T).
      rewrite E. eexists. split; [exact T |].
      rewrite !count_flag_sets_app, count_flag_sets_exit. cbn. lia.
    + destruct (capture_cancelled env url output_path duration logger ff mr legacy
                  fuel k w Hd Hwait Hk Hgo Hstop) as (w1 & E & T).
      rewrite E. eexists. split; [exact T |].
      rewrite !count_flag_sets_app, count_flag_sets_exit. cbn. lia.
    + destruct (capture_hangs env url output_path duration logger ff mr legacy
                  fuel w Hd Hwait Hgo) as (w1 & E & T).
      rewrite E. eexists. split; [exact T |]. cbn. lia.
  - rewrite (capture_overflows env url output_path duration logger ff mr legacy
               fuel w) by lia.
    eexists. split; [reflexivity |]. cbn. lia.
Qed.

(** C9: setting the cancellation flag a second time changes nothing: the flag
    is in the same state, the progress hook raises the same fault, and the
    worker and the join behave the same after it.  The orchestrator itself
    sets the flag at most once in a capture. *)
Theorem stop_flag_set_idempotent (stop_flag : Event) :
  (forall fuel env url output_path duration logger ff mr legacy (w : world),
     exists evs,
       trace (snd (download_with_timeout fuel env url output_path duration logger
                     ff mr legacy w)) = trace w ++ evs /\
       (count_flag_sets evs <= 1)%nat) /\
  Event_set (Event_set stop_flag) = Event_set stop_flag /\
  Event_is_set (Event_set stop_flag) = true /\
  Event_is_set (Event_set (Event_set stop_flag)) = true /\
  progress_hook (Event_set (Event_set stop_flag)) = progress_hook (Event_set stop_flag) /\
  (forall script opts logger pc w,
     run_downloader script opts logger (Event_set (Event_set stop_flag)) pc w
     = run_downloader script opts logger (Event_set stop_flag) pc w) /\
  (forall worker fuel th w,
     join worker fuel (Event_set (Event_set stop_flag)) th w
     = join worker fuel (Event_set stop_flag) th w).
Proof.
  assert (Event_set (Event_set stop_flag) = Event_set stop_flag) as Hidem
    by (destruct stop_flag; reflexivity).
  split.
  - intros. apply capture_sets_flag_once.
  - repeat split; try reflexivity; intros; rewrite Hidem; reflexivity.
Qed.

(** ** Bounded capture: the claims on concrete runs *)

Lemma cancellation_not_before_deadline_witness :
  ((exists evs,
      trace (snd (download_with_timeout 10 Scenario.env_slow
                    "https://example.org/live.mp3" "./temp.%(ext)s" 5
                    Scenario.console false None false Scenario.w0))
      = trace Scenario.w0 ++ evs /\
      In (clock Scenario.w0 + 5, FlagSet) evs /\
      (forall t, In (t, FlagSet) evs -> t = clock Scenario.w0 + 5)) /\
   (fst (download_with_timeout 10 Scenario.env_slow
           "https://example.org/live.mp3" "./temp.%(ext)s" 5
           Scenario.console false None false Scenario.w0) = Hang \/
    exists end_time,
      fst (download_with_timeout 10 Scenario.env_slow
             "https://example.org/live.mp3" "./temp.%(ext)s" 5
             Scenario.console false None false Scenario.w0)
      = Ret (clock Scenario.w0, end_time) /\
      clock Scenario.w0 + 5 <= end_time)) /\
  (fst (download_with_timeout 10 Scenario.env_slow
          "https://example.org/live.mp3" "./temp.%(ext)s" 10000000000
          Scenario.console false None false Scenario.w0)
   = Raise (OverflowError "timestamp too large to convert to C _PyTime_t") /\
   trace (snd (download_with_timeout 10 Scenario.env_slow
                 "https://example.org/live.mp3" "./temp.%(ext)s" 10000000000
                 Scenario.console false None false Scenario.w0))
   = trace Scenario.w0
     ++ [(clock Scenario.w0, ThreadStart "https://example.org/live.mp3")]).
Proof.
  split.
  - apply (proj1 (cancellation_not_before_deadline Scenario.env_slow
                    "https://example.org/live.mp3" "./temp.%(ext)s" 5
                    Scenario.console false None false 10 Scenario.w0
                    ltac:(intros n; cbn; destruct (n =? 7)%nat; reflexivity))).
    unfold TIMEOUT_MAX. lia.
  - apply (proj2 (cancellation_not_before_deadline Scenario.env_slow
                    "https://example.org/live.mp3" "./temp.%(ext)s" 10000000000
                    Scenario.console false None false 10 Scenario.w0
                    ltac:(intros n; cbn; destruct (n =? 7)%nat; reflexivity))).
    unfold TIMEOUT_MAX. lia.
Defined.

(** C1 as stated fails for a duration that [thread.join] does not take: a
    live stream never ends by itself, yet with [-d 10000000000] the call
    raises at once; the flag is not set and no end is recorded. *)
Lemma overlong_duration_never_cancels :
  ~ (exists fuel t,
       In (t, FlagSet)
          (trace (snd (download_with_timeout fuel Scenario.env_live
                         "https://example.org/live.mp3" "./temp.%(ext)s" 10000000000
                         Scenario.console false None false Scenario.w0)))) /\
  ~ (exists fuel start_time end_time w',
       download_with_timeout fuel Scenario.env_live "https://example.org/live.mp3"
         "./temp.%(ext)s" 10000000000 Scenario.console false None false Scenario.w0
       = (Ret (start_time, end_time), w')) /\
  fst (download_with_timeout 1 Scenario.env_live "https://example.org/live.mp3"
         "./temp.%(ext)s" 10000000000 Scenario.console false None false Scenario.w0)
  = Raise (OverflowError "timestamp too large to convert to C _PyTime_t").
Proof.
  split; [| split].
  - intros (fuel & t & Hin).
    rewrite capture_overflows in Hin by (unfold TIMEOUT_MAX; lia).
    cbn in Hin. destruct Hin as [Hin | []]. discriminate.
  - intros (fuel & s & e & w' & E).
    rewrite capture_overflows in E by (unfold TIMEOUT_MAX; lia). discriminate.
  - rewrite capture_overflows by (unfold TIMEOUT_MAX; lia). reflexivity.
Qed.

Lemma natural_completion_leaves_flag_unset_witness :
  (exists w',
     download_with_timeout 0 Scenario.env_short "https://example.org/a.mp3"
       "./temp.%(ext)s" 300 Scenario.console false None false Scenario.w0
     = (Ret (clock Scenario.w0, clock Scenario.w0 + Z.of_nat 3), w') /\
     exists evs,
       trace w' = trace Scenario.w0 ++ evs /\
       (In (clock Scenario.w0 + Z.of_nat 3, ThreadExit) evs \/
        exists e, In (clock Scenario.w0 + Z.of_nat 3, ThreadCrashed e) evs) /\
       (forall t, ~ In (t, FlagSet) evs)) /\
  (fst (download_with_timeout 0 Scenario.env_short "https://example.org/a.mp3"
          "./temp.%(ext)s" 10000000000 Scenario.console false None false Scenario.w0)
   = Raise (OverflowError "timestamp too large to convert to C _PyTime_t") /\
   trace (snd (download_with_timeout 0 Scenario.env_short "https://example.org/a.mp3"
                 "./temp.%(ext)s" 10000000000 Scenario.console false None false
                 Scenario.w0))
   = trace Scenario.w0 ++ [(clock Scenario.w0, ThreadStart "https://example.org/a.mp3")]).
Proof.
  assert (forall j, (j < 3)%nat ->
            exits (download Scenario.env_short
                     (capture_opts "./temp.%(ext)s" false None false)
                     "https://example.org/a.mp3" j) = false) as Hgo.
  { intros j Hj. cbn.
    destruct j as [| [| [| j]]]; [reflexivity | reflexivity | reflexivity | lia]. }
  split.
  - apply (proj1 (natural_completion_leaves_flag_unset Scenario.env_short
                    "https://example.org/a.mp3" "./temp.%(ext)s" 300
                    Scenario.console false None false 0 Scenario.w0 3
                    ltac:(lia) Hgo eq_refl)).
    unfold TIMEOUT_MAX. lia.
  - apply (proj2 (natural_completion_leaves_flag_unset Scenario.env_short
                    "https://example.org/a.mp3" "./temp.%(ext)s" 10000000000
                    Scenario.console false None false 0 Scenario.w0 3
                    ltac:(lia) Hgo eq_refl)).
    unfold TIMEOUT_MAX. lia.
Defined.

(** C2 as stated fails for a duration that [thread.join] does not take: the
    download is complete after three seconds, but with [-d 10000000000] the
    call has raised by then and returns no end timestamp. *)
Lemma overlong_duration_returns_no_end :
  exits (download Scenario.env_short (capture_opts "./temp.%(ext)s" false None false)
           "https://example.org/a.mp3" 3) = true /\
  ~ (exists fuel start_time end_time w',
       download_with_timeout fuel Scenario.env_short "https://example.org/a.mp3"
         "./temp.%(ext)s" 10000000000 Scenario.console false None false Scenario.w0
       = (Ret (start_time, end_time), w')) /\
  fst (download_with_timeout 1 Scenario.env_short "https://example.org/a.mp3"
         "./temp.%(ext)s" 10000000000 Scenario.console false None false Scenario.w0)
  = Raise (OverflowError "timestamp too large to convert to C _PyTime_t").
Proof.
  split; [reflexivity |]. split.
  - intros (fuel & s & e & w' & E).
    rewrite capture_overflows in E by (unfold TIMEOUT_MAX; lia). discriminate.
  - rewrite capture_overflows by (unfold TIMEOUT_MAX; lia). reflexivity.
Qed.



(** C4 as stated fails: a fetcher that is blocked in I/O and reports no
    progress keeps the orchestrator in the second join whatever the fuel. *)
Lemma post_cancellation_join_unbounded :
  ~ (exists fuel start_time end_time w',
       download_with_timeout fuel Scenario.env_silent "https://example.org/live.mp3"
         "./temp.%(ext)s" 5 Scenario.console false None false Scenario.w0
       = (Ret (start_time, end_time), w')).
Proof.
  intros (fuel & s & e & w' & E).
  destruct (capture_hangs Scenario.env_silent "https://example.org/live.mp3"
              "./temp.%(ext)s" 5 Scenario.console false None false
              fuel Scenario.w0) as (w1 & E1 & _).
  - unfold TIMEOUT_MAX. lia.
  - intros j _. reflexivity.
  - intros j _. reflexivity.
  - rewrite E1 in E. discriminate.
Qed.

Lemma capture_returns_iff_worker_ends_witness :
  (exists fuel0, forall fuel, (fuel0 <= fuel)%nat ->
     exists end_time w',
       download_with_timeout fuel Scenario.env_live "https://example.org/live.mp3"
         "./temp.%(ext)s" 5 Scenario.console false None false Scenario.w0
       = (Ret (clock Scenario.w0, end_time), w')) /\
  (forall fuel, exists w',
     download_with_timeout fuel Scenario.env_silent "https://example.org/live.mp3"
       "./temp.%(ext)s" 5 Scenario.console false None false Scenario.w0
     = (Hang, w')).
Proof.
  assert (5 <= TIMEOUT_MAX) as H5 by (unfold TIMEOUT_MAX; lia).
  split.
  - apply (proj1 (capture_returns_iff_worker_ends Scenario.env_live
                    "https://example.org/live.mp3" "./temp.%(ext)s" 5
                    Scenario.console false None false Scenario.w0 H5)).
    exists 5%nat. right. split; [reflexivity | vm_compute; lia].
  - apply (proj2 (capture_returns_iff_worker_ends Scenario.env_silent
                    "https://example.org/live.mp3" "./temp.%(ext)s" 5
                    Scenario.console false None false Scenario.w0 H5)).
    intros n. split; [reflexivity | discriminate].
Defined.

(** ** The calendar *)

(** the year of a day count *)
Lemma civil_year_bounds days :
  let y := (datetime.civil_from_days days).1.1 in
  (-719162 <= days -> 1 <= y) /\
  (days <= 2932896 -> y <= 9999) /\
  (days < -719162 -> y <= 0) /\
  (2932896 < days -> 10000 <= y).
Proof.
  unfold datetime.civil_from_days. cbn [fst].
  set (z := days + 719468).
  set (era := z / 146097). set (doe := z mod 146097).
  set (yoe := (doe - doe / 1460 + doe / 36524 - doe / 146096) / 365).
  set (doy := doe - (365 * yoe + yoe / 4 - yoe / 100)).
  set (mp := (5 * doy + 2) / 153).
  assert (0 <= doe < 146097) as Hdoe by (apply Z.mod_pos_bound; lia).
  assert (z = 146097 * era + doe) as Hz by (apply Z.div_mod; lia).
  assert (0 <= yoe <= 399) as Hyoe.
  { subst yoe. clearbody doe. clear - Hdoe. Z.div_mod_to_equations. lia. }
  repeat split; intros Hd; destruct (mp <? 10)%Z eqn:Hmp;
    destruct (_ <=? 2)%Z eqn:Hm;
    try apply Z.ltb_lt in Hmp; try apply Z.ltb_ge in Hmp;
    try apply Z.leb_le in Hm; try apply Z.leb_gt in Hm;
    subst mp doy yoe; clearbody doe era; subst z; Z.div_mod_to_equations; lia.
Qed.

Lemma wrap_int_small y :
  - 2 ^ 31 <= y < 2 ^ 31 -> datetime.wrap_int y = y.
Proof.
  intros H. unfold datetime.wrap_int. rewrite Z.mod_small by lia. lia.
Qed.

Lemma gmtime_year ts :
  datetime.year (datetime.gmtime ts)
  = (datetime.civil_from_days (ts / 86400)).1.1.
Proof.
  unfold datetime.gmtime.
  destruct (datetime.civil_from_days (ts / 86400)) as [[y m] d]. reflexivity.
Qed.

(** [fromtimestamp] succeeds on the timestamps of the years 1 to 9999 *)
Lemma fromtimestamp_representable ts :
  datetime.representable ts = true ->
  datetime.fromtimestamp ts = Ok (datetime.gmtime ts).
Proof.
  unfold datetime.representable, datetime.min_timestamp, datetime.max_timestamp.
  intros H. apply andb_true_iff in H. destruct H as [Hlo Hhi].
  apply Z.leb_le in Hlo, Hhi.
  destruct (civil_year_bounds (ts / 86400)) as (H1 & H2 & _).
  rewrite <- gmtime_year in H1, H2.
  assert (1 <= datetime.year (datetime.gmtime ts) <= 9999) as Hy.
  { split; [apply H1 | apply H2].
    - apply Z.div_le_lower_bound; lia.
    - apply Z.lt_succ_r. apply Z.div_lt_upper_bound; lia. }
  unfold datetime.fromtimestamp, datetime.valid, datetime.MINYEAR, datetime.MAXYEAR.
  assert ((ts <? - 2 ^ 63)%Z || (2 ^ 63 - 1 <? ts)%Z = false) as ->.
  { apply orb_false_iff. split; [apply Z.ltb_ge | apply Z.ltb_ge]; lia. }
  assert ((datetime.year (datetime.gmtime ts) - 1900 <? - 2 ^ 31)%Z
          || (2 ^ 31 - 1 <? datetime.year (datetime.gmtime ts) - 1900)%Z = false) as ->.
  { apply orb_false_iff. split; [apply Z.ltb_ge | apply Z.ltb_ge]; lia. }
  replace (datetime.year (datetime.gmtime ts) - 1900 + 1900)
    with (datetime.year (datetime.gmtime ts)) by lia.
  rewrite wrap_int_small by lia.
  assert ((1 <=? datetime.year (datetime.gmtime ts))%Z
          && (datetime.year (datetime.gmtime ts) <=? 9999)%Z = true) as ->.
  { apply andb_true_iff. split; apply Z.leb_le; lia. }
  reflexivity.
Qed.

(** and raises on every other *)
Lemma fromtimestamp_unrepresentable ts :
  datetime.representable ts = false ->
  exists msg,
    datetime.fromtimestamp ts = Err (OverflowError msg) \/
    datetime.fromtimestamp ts = Err (OSError msg) \/
    datetime.fromtimestamp ts = Err (ValueError msg).
Proof.
  unfold datetime.representable, datetime.min_timestamp, datetime.max_timestamp.
  intros H. unfold datetime.fromtimestamp, datetime.MINYEAR, datetime.MAXYEAR.
  destruct ((ts <? - 2 ^ 63)%Z || (2 ^ 63 - 1 <? ts)%Z); [eauto |].
  destruct ((datetime.year (datetime.gmtime ts) - 1900 <? - 2 ^ 31)%Z
            || (2 ^ 31 - 1 <? datetime.year (datetime.gmtime ts) - 1900)%Z) eqn:Hint;
    [eauto |].
  apply orb_false_iff in Hint. destruct Hint as [Hlo Hhi].
  apply Z.ltb_ge in Hlo, Hhi.
  replace (datetime.year (datetime.gmtime ts) - 1900 + 1900)
    with (datetime.year (datetime.gmtime ts)) by lia.
  destruct (civil_year_bounds (ts / 86400)) as (_ & _ & H3 & H4).
  rewrite <- gmtime_year in H3, H4.
  assert (datetime.year (datetime.gmtime ts) <= 0
          \/ 10000 <= datetime.year (datetime.gmtime ts)) as Hy.
  { apply andb_false_iff in H. destruct H as [H | H].
    - left. apply Z.leb_gt in H. apply H3.
      apply Z.div_lt_upper_bound; lia.
    - right. apply Z.leb_gt in H. apply H4.
      apply Z.lt_le_trans with (253402300800 / 86400); [reflexivity |].
      apply Z.div_le_mono; lia. }
  assert ((1 <=? datetime.wrap_int (datetime.year (datetime.gmtime ts)))%Z
          && (datetime.wrap_int (datetime.year (datetime.gmtime ts)) <=? 9999)%Z
          = false) as ->; [| eauto].
  apply andb_false_iff.
  destruct (Z_lt_ge_dec (datetime.year (datetime.gmtime ts)) (2 ^ 31)) as [Hs | Hb].
  - rewrite wrap_int_small by lia.
    destruct Hy; [left; apply Z.leb_gt | right; apply Z.leb_gt]; lia.
  - left. apply Z.leb_gt. unfold datetime.wrap_int.
    replace (datetime.year (datetime.gmtime ts) + 2 ^ 31)
      with (datetime.year (datetime.gmtime ts) - 2 ^ 31 + 1 * 2 ^ 32) by lia.
    rewrite Z.mod_add by lia. rewrite Z.mod_small by lia. lia.
Qed.

(** ** What each part of the program adds to the trace *)

Section Appends.

Variable P : event -> Prop.

Lemma appends_ret {A} (a : A) : appends P (ret a).
Proof. intros w. exists []. cbn. rewrite app_nil_r. auto. Qed.

Lemma appends_observe e : P e -> appends P (observe e).
Proof. intros He w. exists [(clock w, e)]. cbn. auto. Qed.

Lemma appends_log logger lv msg : P (Log lv msg) -> appends P (log logger lv msg).
Proof.
  intros He w. exists [(clock w, Log lv msg)]. rewrite log_run. cbn [snd].
  rewrite logged_trace. auto.
Qed.

Lemma appends_silent {A} (m : M A) :
  (forall w, trace (snd (m w)) = trace w) -> appends P m.
Proof. intros H w. exists []. rewrite H, app_nil_r. auto. Qed.

Lemma appends_bind {A B} (m : M A) (k : A -> M B) :
  appends P m -> (forall a, appends P (k a)) -> appends P (bind m k).
Proof.
  intros Hm Hk w. destruct (Hm w) as (evs1 & T1 & F1). unfold bind.
  destruct (m w) as [[a | c | e |] w1]; cbn [snd] in *;
    try (exists evs1; split; assumption).
  destruct (Hk a w1) as (evs2 & T2 & F2).
  exists (evs1 ++ evs2). rewrite T2, T1, app_assoc. split; [reflexivity |].
  apply Forall_app. split; assumption.
Qed.

Lemma bind_Exit {A B} (m : M A) (k : A -> M B) w c :
  fst (m w) = Exit c -> bind m k w = (Exit c, snd (m w)).
Proof. unfold bind. destruct (m w) as [o w']. cbn. intros ->. reflexivity. Qed.

Lemma bind_Raise {A B} (m : M A) (k : A -> M B) w e :
  fst (m w) = Raise e -> bind m k w = (Raise e, snd (m w)).
Proof. unfold bind. destruct (m w) as [o w']. cbn. intros ->. reflexivity. Qed.

Lemma bind_trace {A B} (m : M A) (k : A -> M B) w :
  (forall a, appends P (k a)) ->
  exists evs,
    trace (snd (bind m k w)) = trace (snd (m w)) ++ evs /\
    Forall (fun te => P (snd te)) evs.
Proof.
  intros Hk. unfold bind.
  destruct (m w) as [[a | c | e |] w1]; cbn [snd];
    [apply Hk | | |]; exists []; rewrite app_nil_r; auto.
Qed.

Lemma appends_for_each {A} (l : list A) (body : A -> M unit) :
  (forall x, appends P (body x)) -> appends P (for_each l body).
Proof.
  intros Hb. induction l as [| x l IH]; cbn [for_each].
  - apply appends_ret.
  - apply appends_bind; [apply Hb | intros _; exact IH].
Qed.

Lemma appends_write_file path data : appends P (os.write_file path data).
Proof. apply appends_silent. reflexivity. Qed.

Lemma appends_move src dst : appends P (os.move src dst).
Proof.
  apply appends_silent. intros w. unfold os.move.
  repeat case_match; reflexivity.
Qed.

Lemma appends_listdir d : appends P (os.listdir d).
Proof.
  apply appends_silent. intros w. unfold os.listdir.
  repeat case_match; reflexivity.
Qed.

Lemma appends_sidecars dir identifier filename title description creator license_url :
  appends P (write_internet_archive_metadata_files dir identifier filename
               title description creator license_url).
Proof.
  unfold write_internet_archive_metadata_files.
  apply appends_bind; [apply appends_write_file | intros _; apply appends_write_file].
Qed.

Hypothesis Plog : forall lv msg, P (Log lv msg).

Lemma appends_finalize_entry args logger final_template file :
  appends P (finalize_entry args logger final_template file).
Proof.
  unfold finalize_entry.
  destruct (startswith file "temp." && negb (endswith file ".part"));
    [| apply appends_ret].
  apply appends_bind; [apply appends_move | intros _].
  apply appends_bind; [apply appends_log, Plog | intros _].
  apply appends_sidecars.
Qed.

Lemma appends_finalize_default args logger start_time end_time :
  appends P (finalize_default args logger start_time end_time).
Proof.
  unfold finalize_default.
  apply appends_bind; [apply appends_listdir | intros files].
  apply appends_for_each. intros file. apply appends_finalize_entry.
Qed.

Section Classifier.

Hypothesis Pquery : forall u, P (ExtractInfo u).

Lemma appends_classifier env url logger :
  appends P (is_stream_live_or_exit env url logger).
Proof.
  unfold is_stream_live_or_exit.
  apply appends_bind; [apply appends_observe, Pquery | intros _].
  destruct (extract_info env url) as [info | e].
  - repeat match goal with
           | |- appends _ (if ?c then _ else _) => destruct c
           | |- appends _ (match ?v with Ok _ => _ | Err _ => _ end) => destruct v
           | |- appends _ (bind _ _) => apply appends_bind; [| intros _]
           | |- appends _ (log _ _ _) => apply appends_log, Plog
           | |- appends _ (ret _) => apply appends_ret
           | |- appends _ (py_exit _) => apply appends_silent; reflexivity
           | |- appends _ (raise _) => apply appends_silent; reflexivity
           end.
  - apply appends_bind; [apply appends_log, Plog | intros _; apply appends_ret].
Qed.

End Classifier.

Section Capture.

Hypothesis Plaunch : forall u, P (ThreadStart u).
Hypothesis Pflag : P FlagSet.
Hypothesis Praised : forall e, P (WorkerRaised e).
Hypothesis Pdone : P ThreadExit.
Hypothesis Pcrashed : forall e, P (ThreadCrashed e).

Lemma exit_events_all t f st : Forall (fun te => P (snd te)) (exit_events t f st).
Proof.
  unfold exit_events. destruct st; cbn; try destruct (Event_is_set f);
    repeat constructor; cbn; auto.
Qed.

Lemma capture_trace fuel env url output_path duration logger ff mr legacy w :
  exists evs,
    trace (snd (download_with_timeout fuel env url output_path duration logger
                  ff mr legacy w))
    = trace w ++ (clock w, ThreadStart url) :: evs /\
    Forall (fun te => P (snd te)) evs.
Proof.
  destruct (Z_le_gt_dec duration TIMEOUT_MAX) as [Hd | Hd].
  - destruct (capture_cases env url output_path duration ff mr legacy fuel)
      as [(k & Hk & Hgo & Hstop) | [(Hwait & k & Hk & Hgo & Hstop) | (Hwait & Hgo)]].
    + destruct (capture_completes env url output_path duration logger ff mr legacy
                  fuel k w Hd Hk Hgo Hstop) as (w1 & E & T).
      rewrite E. eexists. split; [exact T |].
      apply Forall_app. split; [apply exit_events_all |].
      repeat constructor; cbn; auto.
    + destruct (capture_cancelled env url output_path duration logger ff mr legacy
                  fuel k w Hd Hwait Hk Hgo Hstop) as (w1 & E & T).
      rewrite E. eexists. split; [exact T |].
      repeat (apply Forall_cons; split); cbn [snd]; auto.
      apply Forall_app. split; [apply exit_events_all |].
      repeat constructor; cbn; auto.
    + destruct (capture_hangs env url output_path duration logger ff mr legacy
                  fuel w Hd Hwait Hgo) as (w1 & E & T).
      rewrite E. eexists. split; [exact T |].
      repeat constructor; cbn; auto.
  - rewrite (capture_overflows env url output_path duration logger ff mr legacy
               fuel w) by lia.
    exists []. split; [reflexivity | constructor].
Qed.

Lemma appends_capture fuel env url output_path duration logger ff mr legacy :
  appends P (download_with_timeout fuel env url output_path duration logger
               ff mr legacy).
Proof.
  intros w.
  destruct (capture_trace fuel env url output_path duration logger ff mr legacy w)
    as (evs & T & F).
  eexists. split; [exact T |]. constructor; [apply Plaunch | exact F].
Qed.

Lemma capture_and_finalize_trace fuel env args logger w :
  exists evs,
    trace (snd (capture_and_finalize fuel env args logger w))
    = trace w ++ (clock w, ThreadStart (url args)) :: evs /\
    Forall (fun te => P (snd te)) evs.
Proof.
  unfold capture_and_finalize.
  destruct (String.eqb _ _).
  - match goal with
    | |- context [bind ?m ?k w] =>
        destruct (bind_trace m k w) as (evs2 & T2 & F2)
    end.
    { intros se. apply appends_finalize_default. }
    rewrite T2.
    match goal with
    | |- context [download_with_timeout ?f ?e ?u ?o ?d ?l ?a ?b ?c w] =>
        destruct (capture_trace f e u o d l a b c w) as (evs1 & T1 & F1)
    end.
    rewrite T1. exists (evs1 ++ evs2). rewrite <- app_assoc. split; [reflexivity |].
    apply Forall_app. split; assumption.
  - match goal with
    | |- context [bind ?m ?k w] =>
        destruct (bind_trace m k w) as (evs2 & T2 & F2)
    end.
    { intros se. apply appends_sidecars. }
    rewrite T2.
    match goal with
    | |- context [download_with_timeout ?f ?e ?u ?o ?d ?l ?a ?b ?c w] =>
        destruct (capture_trace f e u o d l a b c w) as (evs1 & T1 & F1)
    end.
    rewrite T1. exists (evs1 ++ evs2). rewrite <- app_assoc. split; [reflexivity |].
    apply Forall_app. split; assumption.
Qed.

End Capture.

End Appends.

(** ** Strings *)

Lemma startswith_spec p : forall s,
  startswith s p = true <-> exists t, s = p +:+ t.
Proof.
  induction p as [| a p IH]; intros s; cbn.
  - split; [intros _; exists s; reflexivity | intros _; destruct s; reflexivity].
  - destruct s as [| b s]; cbn.
    + split; [discriminate | intros (t & Ht); discriminate].
    + rewrite andb_true_iff, Ascii.eqb_eq, IH. split.
      * intros (-> & t & ->). exists t. reflexivity.
      * intros (t & Ht). injection Ht as -> ->. eauto.
Qed.

Lemma contains_spec sub : forall s,
  contains sub s = true <-> occurs_in sub s.
Proof.
  unfold occurs_in. induction s as [| c s IH]; cbn [contains].
  - rewrite orb_false_r, startswith_spec. split.
    + intros (t & Ht). exists EmptyString, t. exact Ht.
    + intros ([| c pre] & post & H); [| discriminate]. exists post. exact H.
  - rewrite orb_true_iff, startswith_spec, IH. split.
    + intros [(t & Ht) | (pre & post & Ht)].
      * exists EmptyString, t. exact Ht.
      * exists (String c pre), post. cbn. rewrite Ht. reflexivity.
    + intros ([| c' pre] & post & H).
      * left. exists post. exact H.
      * right. injection H as -> ->. eauto.
Qed.

Lemma youtube_url_spec u :
  contains "youtube.com" u || contains "youtu.be" u = true <->
  occurs_in "youtube.com" u \/ occurs_in "youtu.be" u.
Proof. rewrite orb_true_iff, !contains_spec. reflexivity. Qed.

(** ** Stream checker *)

(** the scheduled time can be printed exactly for the printable values *)
Lemma scheduled_time_printable v :
  printable v = true -> exists s, scheduled_time v = Ok s.
Proof.
  destruct v as [| b | ts | s]; cbn; try discriminate.
  - intros _. destruct b; vm_compute; eauto.
  - intros H. rewrite (fromtimestamp_representable ts H). eauto.
Qed.

Lemma scheduled_time_unprintable v :
  printable v = false ->
  exists msg,
    scheduled_time v = Err (TypeError msg) \/
    scheduled_time v = Err (OverflowError msg) \/
    scheduled_time v = Err (OSError msg) \/
    scheduled_time v = Err (ValueError msg).
Proof.
  destruct v as [| b | ts | s]; cbn; try discriminate; eauto.
  intros H. destruct (fromtimestamp_unrepresentable ts H) as (msg & [E | [E | E]]);
    rewrite E; eauto.
Qed.

Ltac classifier_cases :=
  unfold is_stream_live_or_exit, bind, observe, py_exit, raise, ret;
  repeat match goal with
         | |- context [match extract_info ?env ?url with _ => _ end] =>
             destruct (extract_info env url)
         | |- context [if ?c then _ else _] => destruct c
         | |- context [match scheduled_time ?v with _ => _ end] =>
             destruct (scheduled_time v)
         end;
  rewrite ?log_run.

(** The verdict depends on the metadata only. *)
Lemma classifier_outcome env url logger logger' w w' :
  fst (is_stream_live_or_exit env url logger w)
  = fst (is_stream_live_or_exit env url logger' w').
Proof. classifier_cases; reflexivity. Qed.

(** The classifier lets no time pass, makes no directory and writes to no
    file but the log file. *)
Lemma classifier_world env url logger w :
  clock (snd (is_stream_live_or_exit env url logger w)) = clock w /\
  dirs (snd (is_stream_live_or_exit env url logger w)) = dirs w /\
  (forall path, log_sink logger <> Some path ->
     fs (snd (is_stream_live_or_exit env url logger w)) !! path = fs w !! path).
Proof.
  classifier_cases; cbn [snd]; rewrite ?logged_clock, ?logged_dirs;
    (split; [reflexivity |]); (split; [reflexivity |]);
    intros path Hp; rewrite ?logged_fs by exact Hp; reflexivity.
Qed.

Lemma classifier_queries env url logger w :
  exists evs,
    trace (snd (is_stream_live_or_exit env url logger w))
    = trace w ++ (clock w, ExtractInfo url) :: evs.
Proof.
  classifier_cases; cbn [snd]; rewrite ?logged_trace; cbn [emit trace];
    rewrite <- ?app_assoc; eexists; reflexivity.
Qed.

(** ** The start of [main] *)

Lemma setup_logging_run debug log_file w :
  exists logger w',
    setup_logging debug log_file w = (Ret logger, w') /\
    clock w' = clock w /\ trace w' = trace w /\ dirs w' = dirs w /\
    (forall path, log_sink logger <> Some path -> fs w' !! path = fs w !! path).
Proof.
  unfold setup_logging, FileHandler, os.append_file, bind, ret.
  destruct log_file as [f |]; [destruct (String.eqb f EmptyString) |];
    eexists; eexists; (split; [reflexivity |]); cbn; repeat split; auto.
  intros path Hp. apply lookup_insert_ne. congruence.
Qed.

(** [main] up to its branch on the url: the logger is set up, the output
    directory is made and the start is logged; no time passes *)
Lemma main_start fuel env args w :
  exists logger w1,
    main fuel env args w
    = bind (if contains "youtube.com" (url args) || contains "youtu.be" (url args)
            then is_stream_live_or_exit env (url args) logger
            else bind (log logger INFO
                         "Non-YouTube URL detected. Skipping live stream check.")
                   (fun _ => ret "generic"))
        (fun _ => capture_and_finalize fuel env args logger) w1 /\
    clock w1 = clock w /\
    trace w1 = trace w ++ [(clock w, MakeDirs (output_dir args));
                           (clock w, Log INFO "Starting download...")] /\
    (forall path, log_sink logger <> Some path -> fs w1 !! path = fs w !! path) /\
    (forall f, log_sink logger = Some f -> log_file args = Some f).
Proof.
  destruct (setup_logging_run (debug args) (log_file args) w)
    as (logger & w' & E & C & T & D & F).
  exists logger,
    (logged logger INFO "Starting download..."
       (with_dirs ({[ os.norm (output_dir args) ]} ∪ dirs w')
          (emit (MakeDirs (output_dir args)) w'))).
  split; [| split; [| split; [| split]]].
  - unfold main. unfold bind at 1. rewrite E.
    unfold bind at 1, os.makedirs. unfold bind at 1. rewrite log_run. reflexivity.
  - rewrite logged_clock. exact C.
  - rewrite logged_trace. cbn [with_dirs emit trace clock]. rewrite T, C.
    rewrite <- app_assoc. reflexivity.
  - intros path Hp. rewrite logged_fs by exact Hp. cbn [with_dirs emit fs].
    apply F. exact Hp.
  - intros f Hf. unfold setup_logging, bind, FileHandler, os.append_file, ret in E.
    destruct (log_file args) as [g |]; [destruct (String.eqb g EmptyString) |];
      injection E as <- _; cbn in Hf; congruence.
Qed.

(** C5, as amended: the classification table of [is_stream_live_or_exit],
    in the order of the code.  A failed metadata query gives "generic" with
    a warning; a generic extractor gives "generic"; otherwise a stream that
    is live and was live before ends the process with status 0, and one that
    is not live gives "structured".  A stream that is live and was not live
    before ends the process with status 0 when its [release_timestamp] is
    missing, [None], zero, false or empty, or can be printed: a boolean or
    an integer timestamp of the years 1 to 9999.  When it is a non-empty string
    or an integer outside that range, the conversion of the timestamp raises
    [TypeError], [OverflowError], [OSError] or [ValueError] before the
    exit.  In [main], an exit and an exception of the checker both end the
    process at once, before any worker is started; a returned verdict is
    followed by the start of the worker. *)
Theorem stream_classification_table env u logger (w : world) :
  (forall e, extract_info env u = Err e ->
     fst (is_stream_live_or_exit env u logger w) = Ret "generic" /\
     In (clock w,
         Log WARNING ("Could not extract info. Assuming generic stream. Reason: "
                      +:+ exn_str e))
        (trace (snd (is_stream_live_or_exit env u logger w)))) /\
  (forall info, extract_info env u = Ok info ->
     (eq_str (dict_get info "extractor") "generic" = true ->
      fst (is_stream_live_or_exit env u logger w) = Ret "generic") /\
     (eq_str (dict_get info "extractor") "generic" = false ->
      truthy (dict_get info "is_live") = true ->
      truthy (dict_get info "was_live") = false ->
      (truthy (dict_get info "release_timestamp") = false \/
       printable (dict_get info "release_timestamp") = true ->
       fst (is_stream_live_or_exit env u logger w) = Exit 0) /\
      (truthy (dict_get info "release_timestamp") = true ->
       printable (dict_get info "release_timestamp") = false ->
       exists msg,
         fst (is_stream_live_or_exit env u logger w) = Raise (TypeError msg) \/
         fst (is_stream_live_or_exit env u logger w) = Raise (OverflowError msg) \/
         fst (is_stream_live_or_exit env u logger w) = Raise (OSError msg) \/
         fst (is_stream_live_or_exit env u logger w) = Raise (ValueError msg))) /\
     (eq_str (dict_get info "extractor") "generic" = false ->
      truthy (dict_get info "is_live") = true ->
      truthy (dict_get info "was_live") = true ->
      fst (is_stream_live_or_exit env u logger w) = Exit 0) /\
     (eq_str (dict_get info "extractor") "generic" = false ->
      truthy (dict_get info "is_live") = false ->
      fst (is_stream_live_or_exit env u logger w) = Ret "structured")) /\
  (forall fuel args (w0 : world),
     url args = u ->
     occurs_in "youtube.com" u \/ occurs_in "youtu.be" u ->
     (forall c, fst (is_stream_live_or_exit env u logger w) = Exit c ->
        fst (main fuel env args w0) = Exit c /\
        exists evs,
          trace (snd (main fuel env args w0)) = trace w0 ++ evs /\
          forall t u', ~ In (t, ThreadStart u') evs) /\
     (forall e, fst (is_stream_live_or_exit env u logger w) = Raise e ->
        fst (main fuel env args w0) = Raise e /\
        exists evs,
          trace (snd (main fuel env args w0)) = trace w0 ++ evs /\
          forall t u', ~ In (t, ThreadStart u') evs) /\
     (forall verdict, fst (is_stream_live_or_exit env u logger w) = Ret verdict ->
        exists evs,
          trace (snd (main fuel env args w0)) = trace w0 ++ evs /\
          In (clock w0, ThreadStart u) evs)).
Proof.
  split; [| split].
  - intros e He. unfold is_stream_live_or_exit, bind, observe, ret.
    rewrite He, log_run. cbn [fst snd]. split; [reflexivity |].
    rewrite logged_trace. cbn [emit trace clock].
    apply in_or_app. right. left. reflexivity.
  - intros info Hinfo.
    unfold is_stream_live_or_exit, bind, observe, py_exit, raise, ret.
    rewrite Hinfo. split; [| split; [| split]].
    + intros ->. rewrite log_run. reflexivity.
    + intros -> -> ->. cbn [andb negb]. split.
      * intros [Hts | Hts].
        -- rewrite Hts, log_run. reflexivity.
        -- destruct (scheduled_time_printable _ Hts) as (s & ->).
           destruct (truthy _); rewrite log_run; reflexivity.
      * intros -> Hts.
        destruct (scheduled_time_unprintable _ Hts) as (msg & [E | [E | [E | E]]]);
          rewrite E; exists msg; cbn [fst]; auto.
    + intros -> -> ->. cbn [andb negb]. rewrite log_run. reflexivity.
    + intros -> ->. cbn [andb negb]. rewrite log_run. reflexivity.
  - intros fuel args w0 <- Hocc. apply youtube_url_spec in Hocc.
    destruct (main_start fuel env args w0) as (lg & w1 & E & C & T & _).
    rewrite Hocc in E. rewrite E.
    pose proof (classifier_outcome env (url args) logger lg w w1) as Hsame.
    destruct (classifier_world env (url args) lg w1) as (Hclock & _).
    assert (exists evs,
              trace (snd (is_stream_live_or_exit env (url args) lg w1))
              = trace w0 ++ evs /\
              forall t u', ~ In (t, ThreadStart u') evs) as (evs0 & T0 & F0).
    { destruct (appends_classifier (fun e => forall u, e <> ThreadStart u)
                  ltac:(discriminate) ltac:(discriminate) env (url args) lg w1)
        as (evs & T1 & F).
      exists ([(clock w0, MakeDirs (output_dir args));
               (clock w0, Log INFO "Starting download...")] ++ evs).
      split.
      - rewrite T1, T. rewrite <- !app_assoc. reflexivity.
      - intros t u' Hin. apply in_app_or in Hin. destruct Hin as [Hin | Hin].
        + cbn in Hin. destruct Hin as [Hin | [Hin | []]]; discriminate.
        + rewrite Forall_forall in F. apply list_elem_of_In in Hin.
          exact (F _ Hin u' eq_refl). }
    split; [| split].
    + intros c Hc. rewrite Hc in Hsame.
      rewrite (bind_Exit _ _ _ _ (eq_sym Hsame)). cbn [fst snd]. eauto.
    + intros e He. rewrite He in Hsame.
      rewrite (bind_Raise _ _ _ _ (eq_sym Hsame)). cbn [fst snd]. eauto.
    + intros verdict Hv. rewrite Hv in Hsame. unfold bind.
      destruct (classifier_queries env (url args) lg w1) as (evs & T1).
      destruct (is_stream_live_or_exit env (url args) lg w1) as [o w2].
      cbn [fst snd] in *. subst o.
      destruct (capture_and_finalize_trace (fun _ => True) ltac:(cbn; auto)
                  ltac:(cbn; auto) ltac:(cbn; auto) ltac:(cbn; auto)
                  ltac:(cbn; auto)
                  fuel env args lg w2) as (evs2 & T2 & _).
      rewrite T2, T1, T, Hclock, C.
      rewrite <- !app_assoc. eexists. split; [reflexivity |].
      cbn. do 3 right. apply in_or_app. right. left. reflexivity.
Qed.

Lemma stream_classification_table_witness :
  (fst (is_stream_live_or_exit Scenario.env_short Scenario.youtube_url
          Scenario.console Scenario.w0) = Ret "generic") /\
  (fst (is_stream_live_or_exit (Scenario.env_info Scenario.generic_info)
          Scenario.youtube_url Scenario.console Scenario.w0)
   = Ret "generic") /\
  (fst (is_stream_live_or_exit (Scenario.env_info Scenario.deferred_info)
          Scenario.youtube_url Scenario.console Scenario.w0) = Exit 0) /\
  (fst (is_stream_live_or_exit (Scenario.env_info Scenario.unscheduled_info)
          Scenario.youtube_url Scenario.console Scenario.w0) = Exit 0) /\
  (exists msg,
     fst (is_stream_live_or_exit (Scenario.env_info Scenario.millis_info)
            Scenario.youtube_url Scenario.console Scenario.w0)
     = Raise (TypeError msg) \/
     fst (is_stream_live_or_exit (Scenario.env_info Scenario.millis_info)
            Scenario.youtube_url Scenario.console Scenario.w0)
     = Raise (OverflowError msg) \/
     fst (is_stream_live_or_exit (Scenario.env_info Scenario.millis_info)
            Scenario.youtube_url Scenario.console Scenario.w0)
     = Raise (OSError msg) \/
     fst (is_stream_live_or_exit (Scenario.env_info Scenario.millis_info)
            Scenario.youtube_url Scenario.console Scenario.w0)
     = Raise (ValueError msg)) /\
  (fst (is_stream_live_or_exit (Scenario.env_info Scenario.ended_info)
          Scenario.youtube_url Scenario.console Scenario.w0) = Exit 0) /\
  (fst (is_stream_live_or_exit (Scenario.env_info Scenario.video_info)
          Scenario.youtube_url Scenario.console Scenario.w0)
   = Ret "structured") /\
  (fst (main 0 (Scenario.env_info Scenario.deferred_info)
          (Scenario.with_url Scenario.youtube_url Scenario.args0) Scenario.w0)
   = Exit 0) /\
  (fst (main 0 (Scenario.env_info Scenario.millis_info)
          (Scenario.with_url Scenario.youtube_url Scenario.args0) Scenario.w0)
   = Raise (ValueError "year 55969 is out of range")) /\
  (exists evs,
     trace (snd (main 0 (Scenario.env_info Scenario.video_info)
                   (Scenario.with_url Scenario.youtube_url Scenario.args0)
                   Scenario.w0))
     = trace Scenario.w0 ++ evs /\
     In (clock Scenario.w0, ThreadStart Scenario.youtube_url) evs).
Proof.
  assert (occurs_in "youtube.com" Scenario.youtube_url \/
          occurs_in "youtu.be" Scenario.youtube_url) as Hocc.
  { left. exists "https://www.", "/watch?v=abc". reflexivity. }
  refine (conj _ (conj _ (conj _ (conj _ (conj _ (conj _ (conj _ (conj _
            (conj _ _))))))))).
  - apply (proj1 (stream_classification_table Scenario.env_short Scenario.youtube_url
                    Scenario.console Scenario.w0)
             (Exception "unsupported url")).
    reflexivity.
  - apply (proj1 (proj1 (proj2 (stream_classification_table
                    (Scenario.env_info Scenario.generic_info) Scenario.youtube_url
                    Scenario.console Scenario.w0)) _ eq_refl)).
    vm_compute. reflexivity.
  - apply (proj1 (proj1 (proj2 (proj1 (proj2 (stream_classification_table
                    (Scenario.env_info Scenario.deferred_info) Scenario.youtube_url
                    Scenario.console Scenario.w0)) _ eq_refl))
             ltac:(vm_compute; reflexivity) ltac:(vm_compute; reflexivity)
             ltac:(vm_compute; reflexivity))).
    right. vm_compute. reflexivity.
  - apply (proj1 (proj1 (proj2 (proj1 (proj2 (stream_classification_table
                    (Scenario.env_info Scenario.unscheduled_info) Scenario.youtube_url
                    Scenario.console Scenario.w0)) _ eq_refl))
             ltac:(vm_compute; reflexivity) ltac:(vm_compute; reflexivity)
             ltac:(vm_compute; reflexivity))).
    left. vm_compute. reflexivity.
  - apply (proj2 (proj1 (proj2 (proj1 (proj2 (stream_classification_table
                    (Scenario.env_info Scenario.millis_info) Scenario.youtube_url
                    Scenario.console Scenario.w0)) _ eq_refl))
             ltac:(vm_compute; reflexivity) ltac:(vm_compute; reflexivity)
             ltac:(vm_compute; reflexivity))).
    + vm_compute. reflexivity.
    + vm_compute. reflexivity.
  - apply (proj1 (proj2 (proj2 (proj1 (proj2 (stream_classification_table
                    (Scenario.env_info Scenario.ended_info) Scenario.youtube_url
                    Scenario.console Scenario.w0)) _ eq_refl)))).
    + vm_compute. reflexivity.
    + vm_compute. reflexivity.
    + vm_compute. reflexivity.
  - apply (proj2 (proj2 (proj2 (proj1 (proj2 (stream_classification_table
                    (Scenario.env_info Scenario.video_info) Scenario.youtube_url
                    Scenario.console Scenario.w0)) _ eq_refl)))).
    + vm_compute. reflexivity.
    + vm_compute. reflexivity.
  - apply (proj1 (proj1 (proj2 (proj2 (stream_classification_table
                    (Scenario.env_info Scenario.deferred_info) Scenario.youtube_url
                    Scenario.console Scenario.w0))
                    0%nat (Scenario.with_url Scenario.youtube_url Scenario.args0)
                    Scenario.w0 eq_refl Hocc) 0 ltac:(vm_compute; reflexivity))).
  - apply (proj1 (proj1 (proj2 (proj2 (proj2 (stream_classification_table
                    (Scenario.env_info Scenario.millis_info) Scenario.youtube_url
                    Scenario.console Scenario.w0))
                    0%nat (Scenario.with_url Scenario.youtube_url Scenario.args0)
                    Scenario.w0 eq_refl Hocc))
             (ValueError "year 55969 is out of range")
             ltac:(vm_compute; reflexivity))).
  - apply (proj2 (proj2 (proj2 (proj2 (stream_classification_table
                    (Scenario.env_info Scenario.video_info) Scenario.youtube_url
                    Scenario.console Scenario.w0))
                    0%nat (Scenario.with_url Scenario.youtube_url Scenario.args0)
                    Scenario.w0 eq_refl Hocc)) "structured").
    vm_compute. reflexivity.
Defined.

(** C5 as stated fails for a start time that cannot be printed: for a
    stream that is live and was not live before, with the start given in
    milliseconds, the checker raises [ValueError] where the table says that
    the process exits with status 0; so does [main]. *)
Lemma scheduled_in_milliseconds_raises :
  extract_info (Scenario.env_info Scenario.millis_info) Scenario.youtube_url
  = Ok (list_to_map Scenario.millis_info) /\
  truthy (dict_get (list_to_map Scenario.millis_info) "is_live") = true /\
  truthy (dict_get (list_to_map Scenario.millis_info) "was_live") = false /\
  dict_get (list_to_map Scenario.millis_info) "release_timestamp"
  = VInt 1704067200000 /\
  fst (is_stream_live_or_exit (Scenario.env_info Scenario.millis_info)
         Scenario.youtube_url Scenario.console Scenario.w0)
  = Raise (ValueError "year 55969 is out of range") /\
  fst (main 0 (Scenario.env_info Scenario.millis_info)
         (Scenario.with_url Scenario.youtube_url Scenario.args0) Scenario.w0)
  = Raise (ValueError "year 55969 is out of range").
Proof. repeat split; vm_compute; reflexivity. Qed.

(** ** Main entrypoint *)

(** C10: [main] queries the stream metadata exactly when "youtube.com" or
    "youtu.be" occurs somewhere in the url; for every other url it logs that
    the check is skipped and goes on to start the worker, with no metadata
    query anywhere in the run. *)
Theorem classification_iff_youtube_url fuel env args (w : world) :
  exists evs,
    trace (snd (main fuel env args w)) = trace w ++ evs /\
    ((exists t u, In (t, ExtractInfo u) evs) <->
     (occurs_in "youtube.com" (url args) \/ occurs_in "youtu.be" (url args))) /\
    (~ (occurs_in "youtube.com" (url args) \/ occurs_in "youtu.be" (url args)) ->
     In (clock w, Log INFO "Non-YouTube URL detected. Skipping live stream check.") evs /\
     In (clock w, ThreadStart (url args)) evs).
Proof.
  destruct (main_start fuel env args w) as (lg & w1 & E & C & T & _).
  rewrite E. clear E.
  destruct (contains "youtube.com" (url args) || contains "youtu.be" (url args))
    eqn:Hc.
  - destruct (bind_trace (fun _ => True) (is_stream_live_or_exit env (url args) lg)
                (fun _ => capture_and_finalize fuel env args lg) w1)
      as (evs2 & T2 & _).
    { intros _ w'.
      destruct (capture_and_finalize_trace (fun _ => True) ltac:(cbn; auto)
                  ltac:(cbn; auto) ltac:(cbn; auto) ltac:(cbn; auto)
                  ltac:(cbn; auto)
                  fuel env args lg w') as (evs & T' & _).
      eexists. split; [exact T' |]. apply Forall_forall. auto. }
    destruct (classifier_queries env (url args) lg w1) as (evs1 & T1).
    rewrite T2, T1, T, C. rewrite <- !app_assoc.
    eexists. split; [reflexivity |]. split.
    + split; [intros _; apply youtube_url_spec; exact Hc |].
      intros _. exists (clock w), (url args). cbn. auto.
    + intros Hno. exfalso. apply Hno. apply youtube_url_spec. exact Hc.
  - unfold bind at 1. unfold bind at 1. rewrite log_run. unfold ret.
    destruct (capture_and_finalize_trace (fun e => forall u, e <> ExtractInfo u)
                ltac:(discriminate) ltac:(discriminate) ltac:(discriminate)
                ltac:(discriminate) ltac:(discriminate)
                fuel env args lg
                (logged lg INFO "Non-YouTube URL detected. Skipping live stream check."
                   w1)) as (evs & T' & F).
    rewrite T'. rewrite logged_trace, logged_clock, T, C. rewrite <- !app_assoc.
    eexists. split; [reflexivity |]. split.
    + split.
      * intros (t & u & Hin). exfalso. cbn in Hin.
        destruct Hin as [Hin | [Hin | [Hin | [Hin | Hin]]]]; try discriminate.
        rewrite Forall_forall in F. apply list_elem_of_In in Hin.
        exact (F _ Hin u eq_refl).
      * intros Hocc. apply youtube_url_spec in Hocc. congruence.
    + intros _. cbn. auto 6.
Qed.

Lemma classification_iff_youtube_url_witness :
  In (clock Scenario.w0,
      Log INFO "Non-YouTube URL detected. Skipping live stream check.")
     (trace (snd (main 0 Scenario.env_silent Scenario.args0 Scenario.w0))) /\
  In (clock Scenario.w0, ThreadStart (url Scenario.args0))
     (trace (snd (main 0 Scenario.env_silent Scenario.args0 Scenario.w0))).
Proof.
  destruct (classification_iff_youtube_url 0 Scenario.env_silent Scenario.args0
              Scenario.w0) as (evs & T & _ & Hskip).
  rewrite T. cbn [Scenario.w0 trace app].
  apply Hskip. intros Hocc. apply youtube_url_spec in Hocc.
  vm_compute in Hocc. discriminate.
Defined.

(** ** Paths *)

Lemma append_empty_r (s : string) : s +:+ EmptyString = s.
Proof.
  induction s as [| c s IH]; [reflexivity |].
  change (String c (s +:+ EmptyString) = String c s). rewrite IH. reflexivity.
Qed.

Lemma append_assoc (a b c : string) : (a +:+ b) +:+ c = a +:+ (b +:+ c).
Proof.
  induction a as [| x a IH]; [reflexivity |].
  change (String x ((a +:+ b) +:+ c) = String x (a +:+ (b +:+ c))).
  rewrite IH. reflexivity.
Qed.

Lemma drop_append (p t : string) : drop (String.length p) (p +:+ t) = t.
Proof.
  induction p as [| c p IH]; [destruct t; reflexivity |].
  change (drop (String.length p) (p +:+ t) = t). exact IH.
Qed.

(** for a name that is not absolute, [join] puts it behind the directory
    prefix *)
Lemma join_relative d name :
  startswith name posixpath.sep = false ->
  posixpath.join d name = posixpath.join d EmptyString +:+ name.
Proof.
  intros H. unfold posixpath.join. rewrite H. cbn [startswith posixpath.sep].
  destruct ((String.length d =? 0)%nat || endswith d posixpath.sep).
  - rewrite append_empty_r. reflexivity.
  - rewrite !append_assoc. reflexivity.
Qed.

(** the two sidecar paths of one identifier differ *)
Lemma sidecar_paths_differ d identifier :
  posixpath.join d (identifier +:+ "_files.xml")
  <> posixpath.join d (identifier +:+ "_meta.xml").
Proof.
  unfold posixpath.join.
  assert (startswith (identifier +:+ "_files.xml") posixpath.sep
          = startswith (identifier +:+ "_meta.xml") posixpath.sep) as ->.
  { destruct identifier as [| c i]; [reflexivity |].
    change (startswith (String c (i +:+ "_files.xml")) posixpath.sep
            = startswith (String c (i +:+ "_meta.xml")) posixpath.sep).
    cbn [startswith posixpath.sep].
    destruct (Ascii.eqb _ c); cbn [andb]; [| reflexivity].
    destruct (i +:+ "_files.xml"), (i +:+ "_meta.xml"); reflexivity. }
  destruct (startswith _ _); [| destruct (_ || _)]; intros H.
  - apply (inj (String.app identifier)) in H. discriminate.
  - apply (inj (String.app d)) in H. apply (inj (String.app identifier)) in H.
    discriminate.
  - apply (inj (String.app d)) in H. apply (inj (String.app "/")) in H.
    apply (inj (String.app identifier)) in H. discriminate.
Qed.

(** what [write_internet_archive_metadata_files] leaves in the store *)
Lemma sidecars_in_store dir identifier filename title description creator lic w :
  exists w',
    write_internet_archive_metadata_files dir identifier filename
      title description creator lic w = (Ret tt, w') /\
    clock w' = clock w /\ trace w' = trace w /\
    fs w' !! posixpath.join dir (identifier +:+ "_files.xml")
      = Some (files_xml filename) /\
    fs w' !! posixpath.join dir (identifier +:+ "_meta.xml")
      = Some (meta_xml identifier title description creator lic).
Proof.
  eexists. split; [reflexivity |]. cbn.
  split; [reflexivity |]. split; [reflexivity |]. split.
  - rewrite lookup_insert_ne by (apply not_eq_sym, sidecar_paths_differ).
    apply lookup_insert_eq.
  - apply lookup_insert_eq.
Qed.

(** ** The rename loop *)

(** a regular file moves to a path that is free of directories and whose
    directory exists *)
Lemma move_file src dst data w :
  fs w !! src = Some data ->
  os.isdir dst w = false ->
  os.parent_ok dst w = true ->
  os.move src dst w = (Ret tt, with_fs (<[dst := data]> (delete src (fs w))) w).
Proof.
  intros Hs Hd Hp. unfold os.move. rewrite Hd. cbn [andb]. rewrite Hs, Hp. reflexivity.
Qed.




(** ** Output finalisation: the claims *)




(** C7: with start 2024-01-01T00:00:00Z, end 2024-01-01T00:05:00Z, prefix
    "show_" and a downloaded file "temp.mp4", the template and the extension
    substitution of [main] give exactly
    "show_live_20240101T000000_to_20240101T000500.mp4", and a run of [main]
    over that window leaves the artifact under that name. *)
Theorem final_filename_example :
  datetime.fromtimestamp 1704067200
  = {| datetime.year := 2024; datetime.month := 1; datetime.day := 1;
       datetime.hour := 0; datetime.minute := 0; datetime.second := 0 |} /\
  datetime.fromtimestamp 1704067500
  = {| datetime.year := 2024; datetime.month := 1; datetime.day := 1;
       datetime.hour := 0; datetime.minute := 5; datetime.second := 0 |} /\
  generate_timestamped_output_template 1704067200 1704067500 "show_" "%(ext)s"
  = "show_live_20240101T000000_to_20240101T000500.%(ext)s" /\
  lstrip (snd (posixpath.splitext "temp.mp4")) "." = "mp4" /\
  replace (generate_timestamped_output_template 1704067200 1704067500 "show_" "%(ext)s")
    "%(ext)s" (lstrip (snd (posixpath.splitext "temp.mp4")) ".")
  = "show_live_20240101T000000_to_20240101T000500.mp4" /\
  fs (snd (main 1 Scenario.env_live Scenario.args0 Scenario.w0))
    !! "./show_live_20240101T000000_to_20240101T000500.mp4" = Some "data".
Proof. repeat split; vm_compute; reflexivity. Qed.

(** C8: for identifier "X", filename "X.mp4" and no optional field given
    (absent, or given as the empty string), the metadata document has title
    "X" and its description, creator and licence elements are present and
    empty; the manifest lists "X.mp4". *)
Theorem metadata_defaults output_dir (w : world) :
  let expected :=
    "<metadata>" +:+ nl +:+
    "  <title>X</title>" +:+ nl +:+
    "  <identifier>X</identifier>" +:+ nl +:+
    "  <description></description>" +:+ nl +:+
    "  <creator></creator>" +:+ nl +:+
    "  <licenseurl></licenseurl>" +:+ nl +:+
    "  <mediatype>movies</mediatype>" +:+ nl +:+
    "</metadata>" +:+ nl in
  meta_xml "X" None None None None = expected /\
  meta_xml "X" (Some EmptyString) (Some EmptyString) (Some EmptyString)
    (Some EmptyString) = expected /\
  exists w',
    write_internet_archive_metadata_files output_dir "X" "X.mp4"
      None None None None w = (Ret tt, w') /\
    fs w' !! posixpath.join output_dir "X_meta.xml" = Some expected /\
    fs w' !! posixpath.join output_dir "X_files.xml"
      = Some ("<files>" +:+ nl +:+
              "  <file name=" +:+ dquote +:+ "X.mp4" +:+ dquote +:+ "/>" +:+ nl +:+
              "</files>" +:+ nl).
Proof.
  intros expected. split; [reflexivity |]. split; [reflexivity |].
  destruct (sidecars_in_store output_dir "X" "X.mp4" None None None None w)
    as (w' & E & _ & _ & Hf & Hm).
  exists w'. split; [exact E |]. split; [exact Hm | exact Hf].
Qed.

(** * Further properties of the code *)

(** ** The capture window *)

(** X1: a capture that returns [(start, end)] has [start] equal to the clock
    at the call and [start <= end]; every event it adds to the trace is
    stamped inside the window, and the last one is the "Download complete"
    message carrying both timestamps. *)
Theorem capture_window_ordered fuel env url output_path duration logger ff mr legacy
    (w w' : world) start_time end_time :
  download_with_timeout fuel env url output_path duration logger ff mr legacy w
  = (Ret (start_time, end_time), w') ->
  start_time = clock w /\
  start_time <= end_time /\
  exists evs,
    trace w' = trace w ++ evs ++ [(end_time, Log INFO (complete_msg start_time end_time))] /\
    forall t e, In (t, e) evs -> start_time <= t <= end_time.
Proof.
  intros Hrun.
  destruct (Z_le_gt_dec duration TIMEOUT_MAX) as [Hd | Hd];
    [| rewrite capture_overflows in Hrun by lia; discriminate].
  destruct (capture_cases env url output_path duration ff mr legacy fuel)
    as [(k & Hk & Hgo & Hstop) | [(Hwait & k & Hk & Hgo & Hstop) | (Hwait & Hgo)]].
  - destruct (capture_completes env url output_path duration logger ff mr legacy
                fuel k w Hd Hk Hgo Hstop) as (w1 & E & T).
    rewrite E in Hrun. inversion Hrun; subst. clear Hrun.
    split; [reflexivity |]. split; [lia |].
    exists ([(clock w, ThreadStart url)]
            ++ exit_events (clock w + Z.of_nat k) Event_new
                 (download env (capture_opts output_path ff mr legacy) url k)).
    split; [rewrite T, <- !app_assoc; reflexivity |].
    intros t e Hin. apply in_app_or in Hin. destruct Hin as [Hin | Hin].
    + cbn in Hin. destruct Hin as [Hin | []]. inversion Hin. lia.
    + apply exit_events_stamp in Hin. lia.
  - destruct (capture_cancelled env url output_path duration logger ff mr legacy
                fuel k w Hd Hwait Hk Hgo Hstop) as (w1 & E & T).
    rewrite E in Hrun. inversion Hrun; subst. clear Hrun.
    split; [reflexivity |]. split; [lia |].
    exists ([(clock w, ThreadStart url);
             (clock w + Z.of_nat (Z.to_nat duration), Log INFO (stopping_msg duration));
             (clock w + Z.of_nat (Z.to_nat duration), FlagSet)]
            ++ exit_events (clock w + Z.of_nat (Z.to_nat duration) + Z.of_nat k)
                 (Event_set Event_new)
                 (download env (capture_opts output_path ff mr legacy) url
                    (Z.to_nat duration + k))).
    split; [rewrite T, <- !app_assoc; reflexivity |].
    intros t e Hin. apply in_app_or in Hin. destruct Hin as [Hin | Hin].
    + cbn in Hin. destruct Hin as [Hin | [Hin | [Hin | []]]]; inversion Hin; lia.
    + apply exit_events_stamp in Hin. lia.
  - destruct (capture_hangs env url output_path duration logger ff mr legacy
                fuel w Hd Hwait Hgo) as (w1 & E & _).
    rewrite E in Hrun. discriminate.
Qed.

Lemma capture_window_ordered_witness :
  Scenario.epoch_2024 = clock Scenario.w0 /\
  Scenario.epoch_2024 <= Scenario.epoch_2024 + 300 /\
  exists evs,
    trace (snd (download_with_timeout 1 Scenario.env_live "https://example.org/live.mp3"
                  "./temp.%(ext)s" 300 Scenario.console false None false
                  Scenario.w0))
    = trace Scenario.w0 ++ evs
      ++ [(Scenario.epoch_2024 + 300,
           Log INFO (complete_msg Scenario.epoch_2024 (Scenario.epoch_2024 + 300)))] /\
    forall t e, In (t, e) evs -> Scenario.epoch_2024 <= t <= Scenario.epoch_2024 + 300.
Proof.
  apply (capture_window_ordered 1 Scenario.env_live "https://example.org/live.mp3"
           "./temp.%(ext)s" 300 Scenario.console false None false
           Scenario.w0).
  vm_compute. reflexivity.
Defined.

(** X2: the delay of a cancellation is bounded by the worker's next progress
    event.  For a [duration] from 0 to [TIMEOUT_MAX], when the worker is
    still running at the deadline and at some step [n] at or after it
    reports progress (or leaves by itself), the capture returns with
    [start + duration <= end <= start + n]. *)
Theorem cancellation_latency_bounded env url output_path duration logger ff mr legacy
    (w : world) n fuel :
  0 <= duration <= TIMEOUT_MAX ->
  (forall j, (j < Z.to_nat duration)%nat ->
     exits (download env (capture_opts output_path ff mr legacy) url j) = false) ->
  (Z.to_nat duration <= n)%nat ->
  download env (capture_opts output_path ff mr legacy) url n = Progress \/
  exits (download env (capture_opts output_path ff mr legacy) url n) = true ->
  (n < fuel)%nat ->
  exists end_time w',
    download_with_timeout fuel env url output_path duration logger ff mr legacy w
    = (Ret (clock w, end_time), w') /\
    clock w + duration <= end_time <= clock w + Z.of_nat n.
Proof.
  intros [Hd0 Hd] Hrun Hn Hstep Hfuel.
  assert (stops (Event_set Event_new)
            (download env (capture_opts output_path ff mr legacy) url n) = true) as Hs.
  { apply stops_armed. tauto. }
  destruct (capture_cases env url output_path duration ff mr legacy fuel)
    as [(k & Hk & Hgo & Hstop) | [(Hwait & k & Hk & Hgo & Hstop) | (Hwait & Hgo)]].
  - rewrite stops_new, Hrun in Hstop by exact Hk. discriminate.
  - destruct (capture_cancelled env url output_path duration logger ff mr legacy
                fuel k w Hd Hwait Hk Hgo Hstop) as (w1 & E & _).
    exists (clock w + Z.of_nat (Z.to_nat duration) + Z.of_nat k), w1.
    split; [exact E |].
    assert (Z.to_nat duration + k <= n)%nat.
    { destruct (Nat.le_gt_cases (Z.to_nat duration + k) n) as [Hle | Hgt]; [exact Hle |].
      specialize (Hgo (n - Z.to_nat duration)%nat).
      replace (Z.to_nat duration + (n - Z.to_nat duration))%nat with n in Hgo by lia.
      rewrite Hgo in Hs by lia. discriminate. }
    rewrite Z2Nat.id by exact Hd0. lia.
  - specialize (Hgo (n - Z.to_nat duration)%nat).
    replace (Z.to_nat duration + (n - Z.to_nat duration))%nat with n in Hgo by lia.
    rewrite Hgo in Hs by lia. discriminate.
Qed.

Lemma cancellation_latency_bounded_witness :
  exists end_time w',
    download_with_timeout 10 Scenario.env_slow
      "https://example.org/live.mp3" "./temp.%(ext)s" 5
      Scenario.console false None false Scenario.w0
    = (Ret (clock Scenario.w0, end_time), w') /\
    clock Scenario.w0 + 5 <= end_time <= clock Scenario.w0 + Z.of_nat 7.
Proof.
  apply (cancellation_latency_bounded Scenario.env_slow
           "https://example.org/live.mp3" "./temp.%(ext)s" 5
           Scenario.console false None false Scenario.w0 7 10).
  - unfold TIMEOUT_MAX. lia.
  - intros j _. cbn. destruct (j =? 7)%nat; reflexivity.
  - vm_compute. lia.
  - left. reflexivity.
  - lia.
Defined.

(** ** What a capture does to the files *)

Section Frame.

Variable script : nat -> fetch_step.
Variable opts : YdlOpts.
Variable logger : Logger.
Variable p : string.
Hypothesis Hkeeps : forall n data, script n <> Store p data.
Hypothesis Hsink : log_sink logger <> Some p.




End Frame.




(** ** The stream checker, as a whole *)



(** X5: for a stream that is live and was not live before, the line logged
    before the exit follows the truth value of [release_timestamp]: an
    integer other than 0 that is a timestamp of the years 1 to 9999 is
    printed as a UTC date, with the year as it is and the other fields in
    two digits, while 0 is treated like a missing timestamp and logged as
    "no start time is available". *)
Theorem deferred_stream_message env u logger (w : world) info :
  extract_info env u = Ok info ->
  eq_str (dict_get info "extractor") "generic" = false ->
  truthy (dict_get info "is_live") = true ->
  truthy (dict_get info "was_live") = false ->
  (forall ts, dict_get info "release_timestamp" = VInt ts ->
     ts <> 0 ->
     - 62135596800 <= ts <= 253402300799 ->
     fst (is_stream_live_or_exit env u logger w) = Exit 0 /\
     trace (snd (is_stream_live_or_exit env u logger w))
     = trace w ++
       [(clock w, ExtractInfo u);
        (clock w,
         Log INFO ("Stream is scheduled to go live at "
                   +:+ datetime.strftime_utc ts +:+ ". Exiting."))]) /\
  (dict_get info "release_timestamp" = VInt 0 \/
   dict_get info "release_timestamp" = VNone ->
   fst (is_stream_live_or_exit env u logger w) = Exit 0 /\
   trace (snd (is_stream_live_or_exit env u logger w))
   = trace w ++
     [(clock w, ExtractInfo u);
      (clock w,
       Log INFO "Stream is scheduled but no start time is available. Exiting.")]).
Proof.
  intros Hinfo Hgen Hlive Hwas.
  unfold is_stream_live_or_exit, bind, observe, py_exit, raise, ret.
  rewrite Hinfo, Hgen, Hlive, Hwas. cbn [andb negb].
  split.
  - intros ts -> Hnz Hrange. cbn [truthy scheduled_time].
    assert ((ts =? 0)%Z = false) as -> by (apply Z.eqb_neq; exact Hnz).
    rewrite fromtimestamp_representable.
    + cbn [negb]. rewrite log_run. cbn [fst snd]. split; [reflexivity |].
      rewrite logged_trace. cbn [emit trace clock]. rewrite <- app_assoc. reflexivity.
    + unfold datetime.representable, datetime.min_timestamp, datetime.max_timestamp.
      apply andb_true_iff. split; apply Z.leb_le; lia.
  - intros [-> | ->]; cbn [truthy Z.eqb negb]; rewrite log_run; cbn [fst snd];
      (split; [reflexivity |]); rewrite logged_trace; cbn [emit trace clock];
      rewrite <- app_assoc; reflexivity.
Qed.

Lemma deferred_stream_message_witness :
  (fst (is_stream_live_or_exit (Scenario.env_info Scenario.deferred_info)
          Scenario.youtube_url Scenario.console Scenario.w0) = Exit 0 /\
   trace (snd (is_stream_live_or_exit (Scenario.env_info Scenario.deferred_info)
                 Scenario.youtube_url Scenario.console Scenario.w0))
   = [(Scenario.epoch_2024, ExtractInfo Scenario.youtube_url);
      (Scenario.epoch_2024,
       Log INFO "Stream is scheduled to go live at 2024-01-01 00:00:00 UTC. Exiting.")]) /\
  (fst (is_stream_live_or_exit
          (Scenario.env_info
             [("is_live", VBool true); ("release_timestamp", VInt (-50000000000))])
          Scenario.youtube_url Scenario.console Scenario.w0) = Exit 0 /\
   trace (snd (is_stream_live_or_exit
                 (Scenario.env_info
                    [("is_live", VBool true);
                     ("release_timestamp", VInt (-50000000000))])
                 Scenario.youtube_url Scenario.console Scenario.w0))
   = [(Scenario.epoch_2024, ExtractInfo Scenario.youtube_url);
      (Scenario.epoch_2024,
       Log INFO "Stream is scheduled to go live at 385-07-25 07:06:40 UTC. Exiting.")]) /\
  (fst (is_stream_live_or_exit (Scenario.env_info Scenario.unscheduled_info)
          Scenario.youtube_url Scenario.console Scenario.w0) = Exit 0 /\
   trace (snd (is_stream_live_or_exit (Scenario.env_info Scenario.unscheduled_info)
                 Scenario.youtube_url Scenario.console Scenario.w0))
   = [(Scenario.epoch_2024, ExtractInfo Scenario.youtube_url);
      (Scenario.epoch_2024,
       Log INFO "Stream is scheduled but no start time is available. Exiting.")]).
Proof.
  split; [| split].
  - apply (proj1 (deferred_stream_message (Scenario.env_info Scenario.deferred_info)
                    Scenario.youtube_url Scenario.console Scenario.w0
                    (list_to_map Scenario.deferred_info) eq_refl
                    ltac:(vm_compute; reflexivity) ltac:(vm_compute; reflexivity)
                    ltac:(vm_compute; reflexivity)) Scenario.epoch_2024).
    + vm_compute. reflexivity.
    + unfold Scenario.epoch_2024. lia.
    + unfold Scenario.epoch_2024. lia.
  - apply (proj1 (deferred_stream_message
                    (Scenario.env_info
                       [("is_live", VBool true);
                        ("release_timestamp", VInt (-50000000000))])
                    Scenario.youtube_url Scenario.console Scenario.w0
                    (list_to_map [("is_live", VBool true);
                                  ("release_timestamp", VInt (-50000000000))]) eq_refl
                    ltac:(vm_compute; reflexivity) ltac:(vm_compute; reflexivity)
                    ltac:(vm_compute; reflexivity)) (-50000000000)).
    + vm_compute. reflexivity.
    + lia.
    + lia.
  - apply (proj2 (deferred_stream_message
                    (Scenario.env_info Scenario.unscheduled_info)
                    Scenario.youtube_url Scenario.console Scenario.w0
                    (list_to_map Scenario.unscheduled_info) eq_refl
                    ltac:(vm_compute; reflexivity) ltac:(vm_compute; reflexivity)
                    ltac:(vm_compute; reflexivity))).
    right. vm_compute. reflexivity.
Defined.

(** ** The sidecar writer and the store *)



(** ** The final file name *)

Lemma mem_append c (a b : string) : mem c (a +:+ b) = mem c a || mem c b.
Proof.
  induction a as [| d a IH]; [reflexivity |].
  change (mem c (String d (a +:+ b)) = mem c (String d a) || mem c b).
  cbn [mem]. rewrite IH, orb_assoc. reflexivity.
Qed.

Lemma pretty_N_go_no_percent x : forall s,
  mem "%" s = false -> mem "%" (pretty_N_go x s) = false.
Proof.
  induction (N.lt_wf_0 x) as [x _ IH]. intros s Hs.
  destruct (N.eq_dec x 0%N) as [-> | Hx]; [exact Hs |].
  rewrite pretty_N_go_step by lia. apply IH.
  - apply N.div_lt; lia.
  - cbn [mem]. rewrite Hs, orb_false_r.
    unfold pretty_N_char. repeat case_match; reflexivity.
Qed.

Lemma of_int_no_percent n : mem "%" (of_int n) = false.
Proof.
  assert (forall x : positive, mem "%" (pretty x) = false) as Hpos.
  { intros x. change (mem "%" (pretty (N.pos x)) = false).
    unfold pretty, pretty_N. destruct (decide (N.pos x = 0%N)); [reflexivity |].
    apply pretty_N_go_no_percent. reflexivity. }
  unfold of_int. destruct n as [| x | x].
  - reflexivity.
  - exact (Hpos x).
  - change (mem "%" ("-" +:+ pretty x) = false).
    rewrite mem_append, Hpos. reflexivity.
Qed.

Lemma zfill_no_percent width n : mem "%" (zfill width n) = false.
Proof.
  unfold zfill. induction (width - String.length (of_int n))%nat as [| k IH].
  - apply of_int_no_percent.
  - cbn [zfill_go mem]. exact IH.
Qed.

Lemma strftime_compact_no_percent dt : mem "%" (datetime.strftime_compact dt) = false.
Proof.
  unfold datetime.strftime_compact.
  rewrite !mem_append, !zfill_no_percent, of_int_no_percent. reflexivity.
Qed.

(** the placeholder at the end of a name without percent sign is replaced,
    and nothing else is *)
Lemma replace_placeholder stem ext :
  mem "%" stem = false ->
  replace (stem +:+ ".%(ext)s") "%(ext)s" ext = stem +:+ "." +:+ ext.
Proof.
  unfold replace. induction stem as [| c stem IH]; intros Hs.
  - change (String "." (ext +:+ EmptyString) = String "." ext).
    rewrite append_empty_r. reflexivity.
  - cbn [mem] in Hs. apply orb_false_iff in Hs. destruct Hs as [Hc Hs].
    change (replace_go "%(ext)s" ext 0 (String c (stem +:+ ".%(ext)s"))
            = String c (stem +:+ "." +:+ ext)).
    cbn [replace_go startswith]. rewrite Hc. cbn [andb].
    rewrite (IH Hs). reflexivity.
Qed.

(** X7: when the prefix holds no percent sign, the name [main] builds for a
    downloaded file with extension [ext] is the prefix, "live_", the two
    compact timestamps joined by "_to_", a dot and the extension: the
    placeholder is substituted once, at the end, and the timestamps are never
    mistaken for it. *)
Theorem final_name_shape start_time end_time prefix ext :
  mem "%" prefix = false ->
  replace (generate_timestamped_output_template start_time end_time prefix "%(ext)s")
    "%(ext)s" ext
  = prefix +:+ "live_" +:+ datetime.strftime_compact start_time +:+ "_to_"
    +:+ datetime.strftime_compact end_time +:+ "." +:+ ext.
Proof.
  intros Hp. unfold generate_timestamped_output_template.
  pose proof (replace_placeholder
                (prefix +:+ "live_" +:+ datetime.strftime_compact start_time +:+ "_to_"
                 +:+ datetime.strftime_compact end_time) ext) as H.
  rewrite !append_assoc in H.
  change ("." +:+ "%(ext)s") with ".%(ext)s". rewrite H; [reflexivity |].
  rewrite !mem_append, Hp, !strftime_compact_no_percent. reflexivity.
Qed.

Lemma final_name_shape_witness :
  replace (generate_timestamped_output_template 1704067200 1704067500 "show_" "%(ext)s")
    "%(ext)s" "webm"
  = "show_" +:+ "live_" +:+ datetime.strftime_compact 1704067200 +:+ "_to_"
    +:+ datetime.strftime_compact 1704067500 +:+ "." +:+ "webm".
Proof.
  apply (final_name_shape 1704067200 1704067500 "show_" "webm"). reflexivity.
Defined.

(** ** Stems and extensions *)

Lemma take_drop n : forall s, take n s +:+ drop n s = s.
Proof.
  induction n as [| n IH]; intros [| c s]; try reflexivity.
  change (String c (take n s +:+ drop n s) = String c s). rewrite IH. reflexivity.
Qed.

(** [rfind] gives -1 or the index of an occurrence *)
Lemma rfind_go_spec c : forall s i last,
  rfind_go c s i last = last \/
  (i <= rfind_go c s i last /\
   exists t, drop (Z.to_nat (rfind_go c s i last - i)) s = String c t).
Proof.
  induction s as [| d s IH]; intros i last; [left; reflexivity |].
  cbn [rfind_go].
  destruct (IH (i + 1) (if Ascii.eqb c d then i else last)) as [H | (Hle & t & Ht)].
  - rewrite H. destruct (Ascii.eqb c d) eqn:E; [| left; reflexivity].
    right. split; [lia |]. exists s. rewrite Z.sub_diag.
    apply Ascii.eqb_eq in E. subst d. reflexivity.
  - right. split; [lia |]. exists t.
    replace (Z.to_nat (rfind_go c s (i + 1) (if Ascii.eqb c d then i else last) - i))
      with (S (Z.to_nat (rfind_go c s (i + 1) (if Ascii.eqb c d then i else last)
                         - (i + 1)))) by lia.
    exact Ht.
Qed.

Lemma rfind_spec s c :
  rfind s c = -1 \/
  (0 <= rfind s c /\ exists t, drop (Z.to_nat (rfind s c)) s = String c t).
Proof.
  unfold rfind. destruct (rfind_go_spec c s 0 (-1)) as [H | (Hle & t & Ht)];
    [left; exact H | right].
  rewrite Z.sub_0_r in Ht. eauto.
Qed.

Lemma splitext_stem_ext p :
  fst (posixpath.splitext p) +:+ snd (posixpath.splitext p) = p /\
  (snd (posixpath.splitext p) = EmptyString \/
   exists t, snd (posixpath.splitext p) = String "." t).
Proof.
  unfold posixpath.splitext.
  destruct ((rfind p "/" <? rfind p ".")%Z && _) eqn:Hc; cbn [fst snd].
  - split; [apply take_drop |]. right.
    apply andb_true_iff in Hc. destruct Hc as [Hlt _]. apply Z.ltb_lt in Hlt.
    destruct (rfind_spec p "/") as [Hs | (Hs & _)];
      destruct (rfind_spec p ".") as [Hd | (Hd & t & Ht)]; try lia; eauto.
  - split; [apply append_empty_r | left; reflexivity].
Qed.

(** X8: [os.path.splitext], as [main] uses it to take the extension of the
    downloaded file and the identifier of the final name, loses nothing:
    stem and extension put together give the name back, and the extension is
    empty or begins with a dot. *)
Theorem splitext_round_trip p :
  fst (posixpath.splitext p) +:+ snd (posixpath.splitext p) = p /\
  (snd (posixpath.splitext p) = EmptyString \/
   exists t, snd (posixpath.splitext p) = String "." t).
Proof. apply splitext_stem_ext. Qed.

Lemma startswith_same_head id (a b : string) :
  startswith a posixpath.sep = startswith b posixpath.sep ->
  startswith (id +:+ a) posixpath.sep = startswith (id +:+ b) posixpath.sep.
Proof.
  destruct id as [| c i]; [exact (fun H => H) | intros _].
  change (startswith (String c (i +:+ a)) posixpath.sep
          = startswith (String c (i +:+ b)) posixpath.sep).
  cbn [startswith posixpath.sep].
  destruct (Ascii.eqb _ c); cbn [andb]; [| reflexivity].
  destruct (i +:+ a), (i +:+ b); reflexivity.
Qed.

Lemma join_cancel d id (a b : string) :
  startswith a posixpath.sep = startswith b posixpath.sep ->
  posixpath.join d (id +:+ a) = posixpath.join d (id +:+ b) ->
  a = b.
Proof.
  intros Hab. unfold posixpath.join.
  rewrite (startswith_same_head id a b Hab).
  destruct (startswith (id +:+ b) posixpath.sep); [| destruct (_ || _)]; intros H.
  - apply (inj (String.app id)) in H. exact H.
  - apply (inj (String.app d)) in H. apply (inj (String.app id)) in H. exact H.
  - apply (inj (String.app d)) in H. apply (inj (String.app "/")) in H.
    apply (inj (String.app id)) in H. exact H.
Qed.

(** a file is never at the path of one of its own sidecars *)
Lemma name_not_own_sidecar d name suffix :
  (suffix = "_files.xml" \/ suffix = "_meta.xml") ->
  posixpath.join d name
  <> posixpath.join d (fst (posixpath.splitext name) +:+ suffix).
Proof.
  intros Hsuf H.
  destruct (splitext_stem_ext name) as [Hcat Hext].
  rewrite <- Hcat in H at 1. apply join_cancel in H.
  - destruct Hext as [He | (t & He)]; rewrite He in H;
      destruct Hsuf as [-> | ->]; discriminate.
  - destruct Hext as [He | (t & He)]; rewrite He;
      destruct Hsuf as [-> | ->]; reflexivity.
Qed.

(** X9: renaming an artifact keeps its content.  When the loop body handles
    a "temp." entry that is a regular file and not the log file, and the
    final path is free (no directory stands there, its directory exists, it
    is not the log file) and the two sidecar paths can be opened for
    writing, the content that was at the old path is at the path of the
    final name, where the two sidecars written afterwards do not overwrite
    it; and the old path is gone unless it is the new path or one of the
    sidecar paths. *)
Theorem renamed_artifact_keeps_content args logger final_template f data (w : world) :
  is_artifact f = true ->
  let final_name :=
    replace final_template "%(ext)s" (lstrip (snd (posixpath.splitext f)) ".") in
  let identifier := fst (posixpath.splitext final_name) in
  let old_path := posixpath.join (output_dir args) f in
  let new_path := posixpath.join (output_dir args) final_name in
  let files_path := posixpath.join (output_dir args) (identifier +:+ "_files.xml") in
  let meta_path := posixpath.join (output_dir args) (identifier +:+ "_meta.xml") in
  fs w !! old_path = Some data ->
  os.isdir new_path w = false ->
  os.parent_ok new_path w = true ->
  writable files_path w = true ->
  writable meta_path w = true ->
  log_sink logger <> Some old_path ->
  log_sink logger <> Some new_path ->
  exists w',
    finalize_entry args logger final_template f w = (Ret tt, w') /\
    fs w' !! new_path = Some data /\
    (old_path <> new_path -> old_path <> files_path -> old_path <> meta_path ->
     fs w' !! old_path = None).
Proof.
  intros Hart final_name identifier old_path new_path files_path meta_path
    Hdata Hdir Hparent _ _ Hsink_old Hsink_new.
  unfold finalize_entry. unfold is_artifact in Hart. rewrite Hart.
  fold final_name. fold identifier. fold old_path. fold new_path.
  unfold bind at 1. rewrite (move_file _ _ data w Hdata Hdir Hparent).
  unfold bind at 1. rewrite log_run.
  unfold write_internet_archive_metadata_files, bind, os.write_file.
  fold files_path. fold meta_path.
  eexists. split; [reflexivity |]. cbn [snd fs with_fs]. split.
  - rewrite !lookup_insert_ne
      by (apply not_eq_sym, name_not_own_sidecar; auto).
    rewrite logged_fs by exact Hsink_new. cbn [fs with_fs].
    apply lookup_insert_eq.
  - intros Hnew Hfiles Hmeta.
    rewrite !lookup_insert_ne by (apply not_eq_sym; assumption).
    rewrite logged_fs by exact Hsink_old. cbn [fs with_fs].
    rewrite lookup_insert_ne by (apply not_eq_sym; assumption).
    apply lookup_delete_eq.
Qed.

Lemma renamed_artifact_keeps_content_witness :
  exists w',
    finalize_entry Scenario.args0 Scenario.to_file
      "show_live_a_to_b.%(ext)s" "temp.mp4"
      (with_fs {[ "./temp.mp4" := "data" ]} Scenario.w0) = (Ret tt, w') /\
    fs w' !! "./show_live_a_to_b.mp4" = Some "data" /\
    fs w' !! "./temp.mp4" = None.
Proof.
  destruct (renamed_artifact_keeps_content Scenario.args0 Scenario.to_file
              "show_live_a_to_b.%(ext)s" "temp.mp4" "data"
              (with_fs {[ "./temp.mp4" := "data" ]} Scenario.w0))
    as (w' & E & Hnew & Hold).
  - reflexivity.
  - vm_compute. reflexivity.
  - vm_compute. reflexivity.
  - vm_compute. reflexivity.
  - vm_compute. reflexivity.
  - vm_compute. reflexivity.
  - vm_compute. discriminate.
  - vm_compute. discriminate.
  - exists w'. split; [exact E |]. split; [exact Hnew |].
    apply Hold; vm_compute; discriminate.
Defined.

(** ** The explicit output path *)



(** ** What a timeout looks like in the log *)

(** X13: when the worker never leaves by itself, a capture that returns has
    added exactly seven events: the thread start; at the deadline the
    "Stopping download" message and then the flag; and, when the worker next
    reports progress, the hook's exception, the warning "Download
    interrupted: Timeout reached", the end of the thread and the "Download
    complete" message. *)
Theorem timeout_trace fuel env url output_path duration logger ff mr legacy
    (w w' : world) start_time end_time :
  0 <= duration ->
  (forall n, exits (download env (capture_opts output_path ff mr legacy) url n) = false) ->
  download_with_timeout fuel env url output_path duration logger ff mr legacy w
  = (Ret (start_time, end_time), w') ->
  trace w' =
    trace w ++
    [(start_time, ThreadStart url);
     (start_time + duration, Log INFO (stopping_msg duration));
     (start_time + duration, FlagSet);
     (end_time, WorkerRaised (Exception "Timeout reached"));
     (end_time, Log WARNING "Download interrupted: Timeout reached");
     (end_time, ThreadExit);
     (end_time, Log INFO (complete_msg start_time end_time))].
Proof.
  intros Hd0 Hnever Hrun.
  destruct (Z_le_gt_dec duration TIMEOUT_MAX) as [Hd | Hd];
    [| rewrite capture_overflows in Hrun by lia; discriminate].
  destruct (capture_cases env url output_path duration ff mr legacy fuel)
    as [(k & Hk & Hgo & Hstop) | [(Hwait & k & Hk & Hgo & Hstop) | (Hwait & Hgo)]].
  - rewrite stops_new, Hnever in Hstop. discriminate.
  - destruct (capture_cancelled env url output_path duration logger ff mr legacy
                fuel k w Hd Hwait Hk Hgo Hstop) as (w1 & E & T).
    rewrite E in Hrun. inversion Hrun; subst. clear Hrun.
    rewrite T. rewrite Z2Nat.id by exact Hd0.
    apply stops_armed in Hstop. destruct Hstop as [Hstop | Hstop];
      [rewrite Hnever in Hstop; discriminate |].
    rewrite Hstop. reflexivity.
  - destruct (capture_hangs env url output_path duration logger ff mr legacy
                fuel w Hd Hwait Hgo) as (w1 & E & _).
    rewrite E in Hrun. discriminate.
Qed.

Lemma timeout_trace_witness :
  trace (snd (download_with_timeout 1 Scenario.env_live "https://example.org/live.mp3"
                "./temp.%(ext)s" 300 Scenario.console false None false
                Scenario.w0))
  = trace Scenario.w0 ++
    [(Scenario.epoch_2024, ThreadStart "https://example.org/live.mp3");
     (Scenario.epoch_2024 + 300, Log INFO (stopping_msg 300));
     (Scenario.epoch_2024 + 300, FlagSet);
     (Scenario.epoch_2024 + 300, WorkerRaised (Exception "Timeout reached"));
     (Scenario.epoch_2024 + 300, Log WARNING "Download interrupted: Timeout reached");
     (Scenario.epoch_2024 + 300, ThreadExit);
     (Scenario.epoch_2024 + 300,
      Log INFO (complete_msg Scenario.epoch_2024 (Scenario.epoch_2024 + 300)))].
Proof.
  apply (timeout_trace 1 Scenario.env_live "https://example.org/live.mp3"
           "./temp.%(ext)s" 300 Scenario.console false None false
           Scenario.w0).
  - lia.
  - intros n. cbn. destruct (n =? 0)%nat; reflexivity.
  - vm_compute. reflexivity.
Defined.

(** ** Where the sidecars of an explicit output go *)

(** nothing follows the occurrence [rfind] reports *)
Lemma rfind_go_last c : forall s i last,
  last < i ->
  mem c (drop (Z.to_nat (rfind_go c s i last + 1 - i)) s) = false.
Proof.
  induction s as [| d s IH]; intros i last Hlast.
  - destruct (Z.to_nat _); reflexivity.
  - cbn [rfind_go].
    assert ((if Ascii.eqb c d then i else last) < i + 1) as Hlt
      by (destruct (Ascii.eqb c d); lia).
    specialize (IH (i + 1) _ Hlt).
    destruct (rfind_go_spec c s (i + 1) (if Ascii.eqb c d then i else last))
      as [Hr | (Hr & _)].
    + rewrite Hr in *. destruct (Ascii.eqb c d) eqn:E.
      * replace (Z.to_nat (i + 1 - i)) with 1%nat by lia.
        replace (Z.to_nat (i + 1 - (i + 1))) with 0%nat in IH by lia.
        exact IH.
      * replace (Z.to_nat (last + 1 - i)) with 0%nat by lia.
        replace (Z.to_nat (last + 1 - (i + 1))) with 0%nat in IH by lia.
        cbn [drop mem] in *. rewrite E, IH. reflexivity.
    + replace (Z.to_nat (rfind_go c s (i + 1) (if Ascii.eqb c d then i else last)
                         + 1 - i))
        with (S (Z.to_nat (rfind_go c s (i + 1) (if Ascii.eqb c d then i else last)
                           + 1 - (i + 1)))) by lia.
      exact IH.
Qed.

Lemma basename_no_sep p : mem "/" (posixpath.basename p) = false.
Proof.
  unfold posixpath.basename, rfind.
  pose proof (rfind_go_last "/" p 0 (-1) ltac:(lia)) as H.
  rewrite Z.sub_0_r in H. exact H.
Qed.

Lemma contains_char c : forall s, contains (String c EmptyString) s = mem c s.
Proof.
  induction s as [| d s IH]; [reflexivity |].
  cbn [contains startswith mem]. rewrite IH.
  destruct (Ascii.eqb c d); [destruct s; reflexivity | reflexivity].
Qed.

(** a non-empty name without separator, joined to a directory, is an entry
    of that directory under that name *)
Lemma entry_of_joined d name :
  name <> EmptyString ->
  mem "/" name = false ->
  os.entry_of d (posixpath.join d name) = Some name.
Proof.
  intros Hne Hsep.
  assert (startswith name posixpath.sep = false) as Hrel.
  { destruct name as [| c t]; [reflexivity |].
    cbn [mem] in Hsep. apply orb_false_iff in Hsep. destruct Hsep as [Hc _].
    cbn [startswith posixpath.sep]. rewrite Hc. reflexivity. }
  unfold os.entry_of. rewrite (join_relative d name Hrel), drop_append.
  assert (startswith (posixpath.join d EmptyString +:+ name)
            (posixpath.join d EmptyString) = true) as ->
    by (apply startswith_spec; eauto).
  assert (String.eqb name EmptyString = false) as ->
    by (apply String.eqb_neq; exact Hne).
  change posixpath.sep with (String "/" EmptyString).
  rewrite contains_char, Hsep. reflexivity.
Qed.

(** X14: with an explicit output template the two sidecars are always
    direct entries of the output directory, named after the stem of the
    template's last path component: also when the template names a
    sub-directory or an absolute path, and the captured file itself is
    therefore elsewhere. *)
Theorem explicit_sidecars_in_output_dir dir out :
  let identifier := fst (posixpath.splitext (posixpath.basename out)) in
  os.entry_of dir (posixpath.join dir (identifier +:+ "_files.xml"))
  = Some (identifier +:+ "_files.xml") /\
  os.entry_of dir (posixpath.join dir (identifier +:+ "_meta.xml"))
  = Some (identifier +:+ "_meta.xml").
Proof.
  intros identifier.
  assert (mem "/" identifier = false) as Hid.
  { pose proof (basename_no_sep out) as H.
    rewrite <- (proj1 (splitext_stem_ext (posixpath.basename out))) in H.
    rewrite mem_append in H. apply orb_false_iff in H. tauto. }
  split; apply entry_of_joined.
  - destruct identifier; discriminate.
  - rewrite mem_append, Hid. reflexivity.
  - destruct identifier; discriminate.
  - rewrite mem_append, Hid. reflexivity.
Qed.
